(** * Twin Synchronization and Dual-View Engine of the home-digital-twin
    front end (src/frontend/main.js), embedded as Rocq functions.

    The embedding follows the second copy of the program text in main.js
    (lines 1065-2758, the one that has [deleteDevice], the position inputs
    and the 2D node view).  Every definition names the JavaScript function
    it translates.

    Numbers.  JavaScript has one number type, the IEEE-754 double.
    - Health scores are kept as doubles ([float], Rocq's primitive binary64
      numbers): [getHealthInfo] only compares them and the comparison of
      NaN, infinities and signed zeros is part of what is specified.
    - World coordinates, the floor height and the 2D viewport are exact
      rationals ([Q]); products, quotients and [Math.floor] are the exact
      ones, rounding is not modelled.
    - Time values are integer milliseconds ([Z]); a day count is
      [option Z] where [None] stands for NaN. *)

From Stdlib Require Import ZArith QArith Qround Floats String Ascii List Lia Bool HexString.
From stdpp Require Import base list strings pretty.
Import ListNotations.

Local Open Scope string_scope.
Local Open Scope list_scope.

(** ** Strings *)

(** [s.includes(sub)] *)
Fixpoint includes (s sub : string) : bool :=
  if String.prefix sub s then true
  else match s with
       | EmptyString => false
       | String _ s' => includes s' sub
       end.

(** [s.startsWith(pre)] *)
Definition startsWith (s pre : string) : bool := String.prefix pre s.

(** [c.toUpperCase()] on one ASCII character. *)
Definition upper_ascii (c : ascii) : ascii :=
  let n := nat_of_ascii c in
  if andb (97 <=? n)%nat (n <=? 122)%nat then ascii_of_nat (n - 32) else c.

Fixpoint toUpperCase (s : string) : string :=
  match s with
  | EmptyString => EmptyString
  | String c s' => String (upper_ascii c) (toUpperCase s')
  end.

(** [s.padStart(2, '0')] *)
Definition padStart2 (s : string) : string :=
  match String.length s with
  | O => "00"
  | S O => "0" +:+ s
  | _ => s
  end.

(** ** Plain JavaScript objects used as dictionaries

    [DEVICE_DB] and [typeCounters] are object literals indexed by string
    keys.  [Object.keys]/[Object.entries] enumerate such keys in insertion
    order, and assigning to an existing key keeps its place, so the model is
    an association list without duplicate keys. *)
Module JsObject.

Definition t (V : Type) : Type := list (string * V).

(** [o[k]] *)
Fixpoint get {V} (k : string) (o : t V) : option V :=
  match o with
  | [] => None
  | (k', v) :: o' => if String.eqb k k' then Some v else get k o'
  end.

(** [o[k] = v] *)
Fixpoint set {V} (k : string) (v : V) (o : t V) : t V :=
  match o with
  | [] => [(k, v)]
  | (k', v') :: o' =>
      if String.eqb k k' then (k', v) :: o' else (k', v') :: set k v o'
  end.

(** [delete o[k]] *)
Fixpoint delete {V} (k : string) (o : t V) : t V :=
  match o with
  | [] => []
  | (k', v') :: o' =>
      if String.eqb k k' then delete k o' else (k', v') :: delete k o'
  end.

Definition keys {V} (o : t V) : list string := map fst o.
Definition values {V} (o : t V) : list V := map snd o.

End JsObject.

(** ** Status Deriver *)

(** The record returned by [getHealthInfo]. *)
Record healthInfo := HealthInfo {
  label : string;
  hex : string;
  three : N;
  cls : string
}.

Definition HEALTHY : healthInfo :=
  {| label := "Healthy"; hex := "#22c55e"; three := 0x22c55e; cls := "badge-healthy" |}.
Definition WARNING : healthInfo :=
  {| label := "Warning"; hex := "#f59e0b"; three := 0xf59e0b; cls := "badge-warning" |}.
Definition CRITICAL : healthInfo :=
  {| label := "Critical"; hex := "#ef4444"; three := 0xef4444; cls := "badge-critical" |}.

(** [getHealthInfo(score)], main.js 1310-1314.  [score >= 80] is the IEEE
    comparison [80 <= score], false when [score] is NaN.  A caller that
    passes [undefined], [null] or a numeric string gets the comparison of
    its [ToNumber] image, which is again a double. *)
Definition getHealthInfo (score : float) : healthInfo :=
  if PrimFloat.leb 80 score then HEALTHY
  else if PrimFloat.leb 50 score then WARNING
  else CRITICAL.

(** Position of a tier on the scale critical < warning < healthy. *)
Definition tierRank (h : healthInfo) : nat :=
  if String.eqb (label h) "Healthy" then 2
  else if String.eqb (label h) "Warning" then 1
  else 0.

(** A JSON date field: absent (or any falsy value), present but rejected by
    [new Date] (Invalid Date, time value NaN), or a time value in
    milliseconds. *)
Inductive dateField :=
| NoDate
| InvalidDate
| DateAt (ms : Z).

(** [if (warrantyExpiry)] / [if (!warrantyExpiry)] *)
Definition dateTruthy (d : dateField) : bool :=
  match d with NoDate => false | _ => true end.

Definition MS_PER_DAY : Z := 1000 * 60 * 60 * 24.

(** [Math.floor((new Date(expiry) - new Date()) / (1000*60*60*24))], with
    [now] the clock reading; [None] is NaN. *)
Definition daysRemainingAt (now : Z) (expiry : dateField) : option Z :=
  match expiry with
  | DateAt t => Some ((t - now) `div` MS_PER_DAY)%Z
  | _ => None
  end.

(** [d < k] on a day count; a comparison with NaN is false. *)
Definition daysLt (d : option Z) (k : Z) : bool :=
  match d with
  | Some z => (z <? k)%Z
  | None => false
  end.

Record warrantyStatus := WarrantyStatus {
  color : string;
  status : string
}.

(** [getWarrantyStatus(daysRemaining)], main.js 1388-1393. *)
Definition getWarrantyStatus (daysRemaining : option Z) : warrantyStatus :=
  if daysLt daysRemaining 0 then {| color := "#ef4444"; status := "expired" |}
  else if daysLt daysRemaining 30 then {| color := "#f59e0b"; status := "critical" |}
  else if daysLt daysRemaining 90 then {| color := "#eab308"; status := "warning" |}
  else {| color := "#22c55e"; status := "healthy" |}.

(** The ring colour chosen by [addWarrantyIndicator], main.js 1955-1960:
    [null] (here [None]) stays when no branch fires, and [if (!ringColor)
    return] also leaves on a colour that is [0]. *)
Definition ringColorFor (daysRemaining : option Z) : option N :=
  let ringColor :=
    if daysLt daysRemaining 0 then Some 0xef4444%N
    else if daysLt daysRemaining 30 then Some 0xf59e0b%N
    else if daysLt daysRemaining 90 then Some 0xeab308%N
    else None in
  match ringColor with
  | Some 0%N => None
  | c => c
  end.

(** The CSS spelling [#rrggbb] of a 24-bit colour number. *)
Definition cssColor (c : N) : string :=
  "#" +:+ String.substring 2 6 (HexString.of_N c).

(** ** Scene objects *)

Record vec3 := Vec3 { vx : Q; vy : Q; vz : Q }.

(** What a material's [clippingPlanes] refers to: nothing, the one shared
    [floorPlane] object, or private copies of planes ([Material.clone]
    copies the planes it finds). *)
Inductive clipping :=
| ClipNone
| ClipFloorPlane
| ClipPrivateCopy.

(** A THREE material, by value.  Every interactable mesh owns its material
    object (the loader callback and [spawnDeviceFromDatabase] clone it), so
    no two meshes alias one.  [textures] are the [map], [normalMap] and
    [emissiveMap] objects that are set, by identity; a material clone keeps
    referring to the same textures. *)
Record material := Material {
  baseColor : N;
  emissive : N;
  emissiveIntensity : Q;
  opacity : Q;
  transparent : bool;
  clippingPlanes : clipping;
  clipShadows : bool;
  textures : list nat
}.

(** [mat.clone()] *)
Definition mat_clone (m : material) : material :=
  {| baseColor := baseColor m;
     emissive := emissive m;
     emissiveIntensity := emissiveIntensity m;
     opacity := opacity m;
     transparent := transparent m;
     clippingPlanes := match clippingPlanes m with
                       | ClipNone => ClipNone
                       | _ => ClipPrivateCopy
                       end;
     clipShadows := clipShadows m;
     textures := textures m |}.

(** [mat.clippingPlanes = [floorPlane]] *)
Definition mat_clipToFloor (m : material) : material :=
  {| baseColor := baseColor m;
     emissive := emissive m;
     emissiveIntensity := emissiveIntensity m;
     opacity := opacity m;
     transparent := transparent m;
     clippingPlanes := ClipFloorPlane;
     clipShadows := clipShadows m;
     textures := textures m |}.

(** [mat.emissive = new THREE.Color(c); mat.emissiveIntensity = i] *)
Definition mat_setEmissive (c : N) (i : Q) (m : material) : material :=
  {| baseColor := baseColor m;
     emissive := c;
     emissiveIntensity := i;
     opacity := opacity m;
     transparent := transparent m;
     clippingPlanes := clippingPlanes m;
     clipShadows := clipShadows m;
     textures := textures m |}.

(** [mat.transparent = t; mat.opacity = o] *)
Definition mat_setOpacity (t : bool) (o : Q) (m : material) : material :=
  {| baseColor := baseColor m;
     emissive := emissive m;
     emissiveIntensity := emissiveIntensity m;
     opacity := o;
     transparent := t;
     clippingPlanes := clippingPlanes m;
     clipShadows := clipShadows m;
     textures := textures m |}.

(** The warranty ring added as a child of a device mesh. *)
Record ring := Ring {
  ring_color : N;
  ring_opacity : Q
}.

(** A THREE.Mesh.  [geometry] is the identity of its geometry object
    ([Object3D.clone] shares it between a template and its clones);
    [bboxCenter] is the offset of the bounding-box centre from [position]
    (what [Box3.setFromObject(mesh).getCenter] adds); [rotation_deg] is
    [rotation.y] in degrees (the program stores radians and multiplies by
    [Math.PI / 180] and back).  [userData_dbKey] and [userData_originalMat]
    are the two [userData] entries the program sets.  A mesh always has a
    geometry and one material, so the guards [if (mesh.geometry)] and
    [if (mesh.material)] of the program are the taken branch. *)
Record mesh := Mesh {
  name : string;
  position : vec3;
  rotation_deg : Q;
  scale : Q;
  geometry : nat;
  bboxCenter : vec3;
  mat : material;
  userData_dbKey : option string;
  userData_originalMat : option material;
  children : list ring
}.

Definition mesh_setPosition (p : vec3) (m : mesh) : mesh :=
  {| name := name m; position := p; rotation_deg := rotation_deg m;
     scale := scale m; geometry := geometry m; bboxCenter := bboxCenter m;
     mat := mat m; userData_dbKey := userData_dbKey m;
     userData_originalMat := userData_originalMat m; children := children m |}.

Definition mesh_setRotation (r : Q) (m : mesh) : mesh :=
  {| name := name m; position := position m; rotation_deg := r;
     scale := scale m; geometry := geometry m; bboxCenter := bboxCenter m;
     mat := mat m; userData_dbKey := userData_dbKey m;
     userData_originalMat := userData_originalMat m; children := children m |}.

Definition mesh_setScale (k : Q) (m : mesh) : mesh :=
  {| name := name m; position := position m; rotation_deg := rotation_deg m;
     scale := k; geometry := geometry m; bboxCenter := bboxCenter m;
     mat := mat m; userData_dbKey := userData_dbKey m;
     userData_originalMat := userData_originalMat m; children := children m |}.

Definition mesh_setName (n : string) (m : mesh) : mesh :=
  {| name := n; position := position m; rotation_deg := rotation_deg m;
     scale := scale m; geometry := geometry m; bboxCenter := bboxCenter m;
     mat := mat m; userData_dbKey := userData_dbKey m;
     userData_originalMat := userData_originalMat m; children := children m |}.

Definition mesh_setMat (x : material) (m : mesh) : mesh :=
  {| name := name m; position := position m; rotation_deg := rotation_deg m;
     scale := scale m; geometry := geometry m; bboxCenter := bboxCenter m;
     mat := x; userData_dbKey := userData_dbKey m;
     userData_originalMat := userData_originalMat m; children := children m |}.

Definition mesh_setDbKey (k : option string) (m : mesh) : mesh :=
  {| name := name m; position := position m; rotation_deg := rotation_deg m;
     scale := scale m; geometry := geometry m; bboxCenter := bboxCenter m;
     mat := mat m; userData_dbKey := k;
     userData_originalMat := userData_originalMat m; children := children m |}.

Definition mesh_setOriginalMat (x : option material) (m : mesh) : mesh :=
  {| name := name m; position := position m; rotation_deg := rotation_deg m;
     scale := scale m; geometry := geometry m; bboxCenter := bboxCenter m;
     mat := mat m; userData_dbKey := userData_dbKey m;
     userData_originalMat := x; children := children m |}.

Definition mesh_setChildren (c : list ring) (m : mesh) : mesh :=
  {| name := name m; position := position m; rotation_deg := rotation_deg m;
     scale := scale m; geometry := geometry m; bboxCenter := bboxCenter m;
     mat := mat m; userData_dbKey := userData_dbKey m;
     userData_originalMat := userData_originalMat m; children := c |}.

(** [mesh.userData.dbKey] used as a property name: [undefined] becomes the
    string ["undefined"]. *)
Definition dbKeyOf (m : mesh) : string :=
  match userData_dbKey m with
  | Some k => k
  | None => "undefined"
  end.

(** ** Registry records *)

(** A value of [DEVICE_DB].  [db_id] is absent for the devices found in the
    GLB model. *)
Record device := Device {
  db_id : option N;
  d_name : string;
  d_type : string;
  d_manufacturer : string;
  serial : string;
  health : float;
  lastMaintenance : string;
  location : string;
  notes : string;
  warrantyExpiry : dateField
}.

(** [if (data.db_id)]: an id of [0] is falsy like a missing one. *)
Definition hasDbId (d : device) : bool :=
  match db_id d with
  | Some n => negb (n =? 0)%N
  | None => false
  end.

Record productData := ProductData {
  mesh_identifier : string;
  product_name : string;
  product_type : string;
  product_manufacturer : string;
  product_description : string
}.

(** A device record as the Persistence Service returns it.
    [last_maintenance] is already the string [toLocaleDateString] shows. *)
Record deviceData := DeviceData {
  id : N;
  product : productData;
  position_x : Q;
  position_y : Q;
  position_z : Q;
  rotation_y : option Q;
  serial_number : string;
  health_score : float;
  last_maintenance : option string;
  floor_number : Z;
  dd_notes : option string;
  warranty_expiry : dateField
}.

(** The key [`db_${deviceData.id}`]. *)
Definition dbKeyOfId (n : N) : string := "db_" +:+ pretty n.

(** ** Animations, selector, 2D viewport, panel *)

(** What a TWEEN animates; the mesh is named by its identity. *)
Inductive tweenKind :=
| Blink (o : nat)
| FadeOut (o : nat)
| RingPulse (o : nat) (child : nat)
| SpawnScale (o : nat) (startScale : Q).

(** A tween object: [playing] holds from [start()] until [stop()] or
    completion. *)
Record tween := Tween {
  kind : tweenKind;
  playing : bool
}.

(** The [value] of the floor [select] element: ['all'], the text of a
    number, or [''] when no option is selected. *)
Inductive floorValue :=
| FvAll
| FvNum (n : Z)
| FvNone.

(** [parseInt(floorSelect.value) || 1] *)
Definition floorValOr1 (v : floorValue) : Z :=
  match v with
  | FvNum n => if (n =? 0)%Z then 1%Z else n
  | _ => 1%Z
  end.

Record nodeViewState := NodeView {
  offsetX : Q;
  offsetY : Q;
  nv_scale : Q;
  isDragging : bool;
  dragStartX : Q;
  dragStartY : Q;
  hoveredNode : option string;
  minScale : Q;
  maxScale : Q
}.

(** What [showInfoPanel] writes into the panel; [uiPosition] stands for the
    three position inputs, which keep their content when the key has no
    mesh. *)
Record panel := Panel {
  uiName : string;
  uiSerial : string;
  uiHealth : float;
  uiDate : string;
  uiStatus : healthInfo;
  uiPosition : option vec3;
  uiDatabaseDevice : bool;
  uiWarranty : option (option Z * warrantyStatus)
}.

(** Disposal calls on GPU-backed resources, in the order they are made. *)
Inductive disposal :=
| DisposeGeometry (g : nat)
| DisposeTexture (t : nat)
| DisposeMaterial (o : nat)
| DisposeRing (o : nat) (r : ring).

(** ** The program state

    [heap] holds every mesh object by identity (its index); the other
    fields refer to meshes by identity, as the JavaScript variables do, so a
    mesh changed through [state3D.selectedMesh] is the one
    [interactableMeshes] and the scene graph see.  [tweens] holds every
    tween by identity.  The camera is not modelled. *)
Record state := State {
  heap : list mesh;
  interactableMeshes : list nat;
  scene : list nat;
  DEVICE_DB : JsObject.t device;
  pendingDatabaseDevices : option (list deviceData);
  typeCounters : JsObject.t nat;
  selectedMesh : option nat;
  blinkTween : option nat;
  tweens : list tween;
  disposed : list disposal;
  floorPlane_constant : Q;
  FLOOR_HEIGHT : Q;
  floorSelect : floorValue;
  numFloors : Z;
  infoPanel : option panel;
  infoPanelActive : bool;
  nodeView : nodeViewState
}.

(** Field updates. *)
Definition set_heap (x : list mesh) (s : state) : state :=
  {| heap := x; interactableMeshes := interactableMeshes s; scene := scene s;
     DEVICE_DB := DEVICE_DB s;
     pendingDatabaseDevices := pendingDatabaseDevices s;
     typeCounters := typeCounters s; selectedMesh := selectedMesh s;
     blinkTween := blinkTween s; tweens := tweens s; disposed := disposed s;
     floorPlane_constant := floorPlane_constant s;
     FLOOR_HEIGHT := FLOOR_HEIGHT s; floorSelect := floorSelect s;
     numFloors := numFloors s; infoPanel := infoPanel s;
     infoPanelActive := infoPanelActive s; nodeView := nodeView s |}.

Definition set_interactableMeshes (x : list nat) (s : state) : state :=
  {| heap := heap s; interactableMeshes := x; scene := scene s;
     DEVICE_DB := DEVICE_DB s;
     pendingDatabaseDevices := pendingDatabaseDevices s;
     typeCounters := typeCounters s; selectedMesh := selectedMesh s;
     blinkTween := blinkTween s; tweens := tweens s; disposed := disposed s;
     floorPlane_constant := floorPlane_constant s;
     FLOOR_HEIGHT := FLOOR_HEIGHT s; floorSelect := floorSelect s;
     numFloors := numFloors s; infoPanel := infoPanel s;
     infoPanelActive := infoPanelActive s; nodeView := nodeView s |}.

Definition set_scene (x : list nat) (s : state) : state :=
  {| heap := heap s; interactableMeshes := interactableMeshes s; scene := x;
     DEVICE_DB := DEVICE_DB s;
     pendingDatabaseDevices := pendingDatabaseDevices s;
     typeCounters := typeCounters s; selectedMesh := selectedMesh s;
     blinkTween := blinkTween s; tweens := tweens s; disposed := disposed s;
     floorPlane_constant := floorPlane_constant s;
     FLOOR_HEIGHT := FLOOR_HEIGHT s; floorSelect := floorSelect s;
     numFloors := numFloors s; infoPanel := infoPanel s;
     infoPanelActive := infoPanelActive s; nodeView := nodeView s |}.

Definition set_DEVICE_DB (x : JsObject.t device) (s : state) : state :=
  {| heap := heap s; interactableMeshes := interactableMeshes s;
     scene := scene s; DEVICE_DB := x;
     pendingDatabaseDevices := pendingDatabaseDevices s;
     typeCounters := typeCounters s; selectedMesh := selectedMesh s;
     blinkTween := blinkTween s; tweens := tweens s; disposed := disposed s;
     floorPlane_constant := floorPlane_constant s;
     FLOOR_HEIGHT := FLOOR_HEIGHT s; floorSelect := floorSelect s;
     numFloors := numFloors s; infoPanel := infoPanel s;
     infoPanelActive := infoPanelActive s; nodeView := nodeView s |}.

Definition set_pendingDatabaseDevices (x : option (list deviceData)) (s : state) : state :=
  {| heap := heap s; interactableMeshes := interactableMeshes s;
     scene := scene s; DEVICE_DB := DEVICE_DB s; pendingDatabaseDevices := x;
     typeCounters := typeCounters s; selectedMesh := selectedMesh s;
     blinkTween := blinkTween s; tweens := tweens s; disposed := disposed s;
     floorPlane_constant := floorPlane_constant s;
     FLOOR_HEIGHT := FLOOR_HEIGHT s; floorSelect := floorSelect s;
     numFloors := numFloors s; infoPanel := infoPanel s;
     infoPanelActive := infoPanelActive s; nodeView := nodeView s |}.

Definition set_typeCounters (x : JsObject.t nat) (s : state) : state :=
  {| heap := heap s; interactableMeshes := interactableMeshes s;
     scene := scene s; DEVICE_DB := DEVICE_DB s;
     pendingDatabaseDevices := pendingDatabaseDevices s; typeCounters := x;
     selectedMesh := selectedMesh s; blinkTween := blinkTween s;
     tweens := tweens s; disposed := disposed s;
     floorPlane_constant := floorPlane_constant s;
     FLOOR_HEIGHT := FLOOR_HEIGHT s; floorSelect := floorSelect s;
     numFloors := numFloors s; infoPanel := infoPanel s;
     infoPanelActive := infoPanelActive s; nodeView := nodeView s |}.

Definition set_selectedMesh (x : option nat) (s : state) : state :=
  {| heap := heap s; interactableMeshes := interactableMeshes s;
     scene := scene s; DEVICE_DB := DEVICE_DB s;
     pendingDatabaseDevices := pendingDatabaseDevices s;
     typeCounters := typeCounters s; selectedMesh := x;
     blinkTween := blinkTween s; tweens := tweens s; disposed := disposed s;
     floorPlane_constant := floorPlane_constant s;
     FLOOR_HEIGHT := FLOOR_HEIGHT s; floorSelect := floorSelect s;
     numFloors := numFloors s; infoPanel := infoPanel s;
     infoPanelActive := infoPanelActive s; nodeView := nodeView s |}.

Definition set_blinkTween (x : option nat) (s : state) : state :=
  {| heap := heap s; interactableMeshes := interactableMeshes s;
     scene := scene s; DEVICE_DB := DEVICE_DB s;
     pendingDatabaseDevices := pendingDatabaseDevices s;
     typeCounters := typeCounters s; selectedMesh := selectedMesh s;
     blinkTween := x; tweens := tweens s; disposed := disposed s;
     floorPlane_constant := floorPlane_constant s;
     FLOOR_HEIGHT := FLOOR_HEIGHT s; floorSelect := floorSelect s;
     numFloors := numFloors s; infoPanel := infoPanel s;
     infoPanelActive := infoPanelActive s; nodeView := nodeView s |}.

Definition set_tweens (x : list tween) (s : state) : state :=
  {| heap := heap s; interactableMeshes := interactableMeshes s;
     scene := scene s; DEVICE_DB := DEVICE_DB s;
     pendingDatabaseDevices := pendingDatabaseDevices s;
     typeCounters := typeCounters s; selectedMesh := selectedMesh s;
     blinkTween := blinkTween s; tweens := x; disposed := disposed s;
     floorPlane_constant := floorPlane_constant s;
     FLOOR_HEIGHT := FLOOR_HEIGHT s; floorSelect := floorSelect s;
     numFloors := numFloors s; infoPanel := infoPanel s;
     infoPanelActive := infoPanelActive s; nodeView := nodeView s |}.

Definition set_disposed (x : list disposal) (s : state) : state :=
  {| heap := heap s; interactableMeshes := interactableMeshes s;
     scene := scene s; DEVICE_DB := DEVICE_DB s;
     pendingDatabaseDevices := pendingDatabaseDevices s;
     typeCounters := typeCounters s; selectedMesh := selectedMesh s;
     blinkTween := blinkTween s; tweens := tweens s; disposed := x;
     floorPlane_constant := floorPlane_constant s;
     FLOOR_HEIGHT := FLOOR_HEIGHT s; floorSelect := floorSelect s;
     numFloors := numFloors s; infoPanel := infoPanel s;
     infoPanelActive := infoPanelActive s; nodeView := nodeView s |}.

Definition set_floorPlane_constant (x : Q) (s : state) : state :=
  {| heap := heap s; interactableMeshes := interactableMeshes s;
     scene := scene s; DEVICE_DB := DEVICE_DB s;
     pendingDatabaseDevices := pendingDatabaseDevices s;
     typeCounters := typeCounters s; selectedMesh := selectedMesh s;
     blinkTween := blinkTween s; tweens := tweens s; disposed := disposed s;
     floorPlane_constant := x; FLOOR_HEIGHT := FLOOR_HEIGHT s;
     floorSelect := floorSelect s; numFloors := numFloors s;
     infoPanel := infoPanel s; infoPanelActive := infoPanelActive s;
     nodeView := nodeView s |}.

Definition set_FLOOR_HEIGHT (x : Q) (s : state) : state :=
  {| heap := heap s; interactableMeshes := interactableMeshes s;
     scene := scene s; DEVICE_DB := DEVICE_DB s;
     pendingDatabaseDevices := pendingDatabaseDevices s;
     typeCounters := typeCounters s; selectedMesh := selectedMesh s;
     blinkTween := blinkTween s; tweens := tweens s; disposed := disposed s;
     floorPlane_constant := floorPlane_constant s; FLOOR_HEIGHT := x;
     floorSelect := floorSelect s; numFloors := numFloors s;
     infoPanel := infoPanel s; infoPanelActive := infoPanelActive s;
     nodeView := nodeView s |}.

Definition set_floorSelect (x : floorValue) (s : state) : state :=
  {| heap := heap s; interactableMeshes := interactableMeshes s;
     scene := scene s; DEVICE_DB := DEVICE_DB s;
     pendingDatabaseDevices := pendingDatabaseDevices s;
     typeCounters := typeCounters s; selectedMesh := selectedMesh s;
     blinkTween := blinkTween s; tweens := tweens s; disposed := disposed s;
     floorPlane_constant := floorPlane_constant s;
     FLOOR_HEIGHT := FLOOR_HEIGHT s; floorSelect := x;
     numFloors := numFloors s; infoPanel := infoPanel s;
     infoPanelActive := infoPanelActive s; nodeView := nodeView s |}.

Definition set_numFloors (x : Z) (s : state) : state :=
  {| heap := heap s; interactableMeshes := interactableMeshes s;
     scene := scene s; DEVICE_DB := DEVICE_DB s;
     pendingDatabaseDevices := pendingDatabaseDevices s;
     typeCounters := typeCounters s; selectedMesh := selectedMesh s;
     blinkTween := blinkTween s; tweens := tweens s; disposed := disposed s;
     floorPlane_constant := floorPlane_constant s;
     FLOOR_HEIGHT := FLOOR_HEIGHT s; floorSelect := floorSelect s;
     numFloors := x; infoPanel := infoPanel s;
     infoPanelActive := infoPanelActive s; nodeView := nodeView s |}.

Definition set_infoPanel (x : option panel) (s : state) : state :=
  {| heap := heap s; interactableMeshes := interactableMeshes s;
     scene := scene s; DEVICE_DB := DEVICE_DB s;
     pendingDatabaseDevices := pendingDatabaseDevices s;
     typeCounters := typeCounters s; selectedMesh := selectedMesh s;
     blinkTween := blinkTween s; tweens := tweens s; disposed := disposed s;
     floorPlane_constant := floorPlane_constant s;
     FLOOR_HEIGHT := FLOOR_HEIGHT s; floorSelect := floorSelect s;
     numFloors := numFloors s; infoPanel := x;
     infoPanelActive := infoPanelActive s; nodeView := nodeView s |}.

Definition set_infoPanelActive (x : bool) (s : state) : state :=
  {| heap := heap s; interactableMeshes := interactableMeshes s;
     scene := scene s; DEVICE_DB := DEVICE_DB s;
     pendingDatabaseDevices := pendingDatabaseDevices s;
     typeCounters := typeCounters s; selectedMesh := selectedMesh s;
     blinkTween := blinkTween s; tweens := tweens s; disposed := disposed s;
     floorPlane_constant := floorPlane_constant s;
     FLOOR_HEIGHT := FLOOR_HEIGHT s; floorSelect := floorSelect s;
     numFloors := numFloors s; infoPanel := infoPanel s;
     infoPanelActive := x; nodeView := nodeView s |}.

Definition set_nodeView (x : nodeViewState) (s : state) : state :=
  {| heap := heap s; interactableMeshes := interactableMeshes s;
     scene := scene s; DEVICE_DB := DEVICE_DB s;
     pendingDatabaseDevices := pendingDatabaseDevices s;
     typeCounters := typeCounters s; selectedMesh := selectedMesh s;
     blinkTween := blinkTween s; tweens := tweens s; disposed := disposed s;
     floorPlane_constant := floorPlane_constant s;
     FLOOR_HEIGHT := FLOOR_HEIGHT s; floorSelect := floorSelect s;
     numFloors := numFloors s; infoPanel := infoPanel s;
     infoPanelActive := infoPanelActive s; nodeView := x |}.

(** ** Object store *)

(** Mutating the mesh object [o] in place. *)
Definition updateMesh (o : nat) (f : mesh -> mesh) (s : state) : state :=
  set_heap (alter f o (heap s)) s.

(** A new mesh object; its identity is the next free index. *)
Definition allocMesh (m : mesh) (s : state) : nat * state :=
  (length (heap s), set_heap (heap s ++ [m]) s).

(** The meshes a list of references denotes. *)
Definition meshesOf (s : state) (l : list nat) : list (nat * mesh) :=
  omap (fun o => match heap s !! o with
                 | Some m => Some (o, m)
                 | None => None
                 end) l.

(** [interactableMeshes.find(p)] *)
Definition findMesh (p : mesh -> bool) (s : state) : option (nat * mesh) :=
  List.find (fun om => p (snd om)) (meshesOf s (interactableMeshes s)).

(** [m.userData.dbKey === dbKey] *)
Definition hasDbKey (dbKey : string) (m : mesh) : bool :=
  match userData_dbKey m with
  | Some k => String.eqb k dbKey
  | None => false
  end.

(** [interactableMeshes.indexOf(x)] followed by [splice(index, 1)] when the
    index is not [-1]. *)
Fixpoint removeFirst (x : nat) (l : list nat) : list nat :=
  match l with
  | [] => []
  | y :: l' => if Nat.eqb x y then l' else y :: removeFirst x l'
  end.

(** [new TWEEN.Tween(..)...start()] *)
Definition tweenStart (k : tweenKind) (s : state) : nat * state :=
  (length (tweens s),
   set_tweens (tweens s ++ [{| kind := k; playing := true |}]) s).

(** [tween.stop()] *)
Definition tweenStop (t : nat) (s : state) : state :=
  set_tweens
    (alter (fun tw => {| kind := kind tw; playing := false |}) t (tweens s)) s.

(** ** Sync Gateway: calls to the Persistence Service *)

(** How a [fetch] ends: the promise rejects, or a response arrives whose
    [ok] flag tells a 2xx status. *)
Inductive fetchResult :=
| NetworkFailure
| HttpResponse (ok : bool).

Inductive message :=
| MsgInvalidCoordinates
| MsgPositionSaved (p : vec3)
| MsgPositionLocalOnly (p : vec3)
| MsgNoDeviceInfo
| MsgDeleteFailed
| MsgRemoved (databaseDevice : bool) (sn : string).

(** What the user or the console gets to see. *)
Inductive uiEvent :=
| Alert (m : message)
| ConsoleError (what : string).

(** [saveDevicePosition], main.js 1157-1174: the function has no return
    value; a failure is caught and written to the console. *)
Definition saveDevicePosition (r : fetchResult) : list uiEvent :=
  match r with
  | HttpResponse true => []
  | _ => [ConsoleError "Failed to save device position:"]
  end.

(** [updateDeviceHealth], main.js 1198-1212: [response.ok] is not looked
    at, so only a rejected [fetch] is logged. *)
Definition updateDeviceHealth (r : fetchResult) : list uiEvent :=
  match r with
  | NetworkFailure => [ConsoleError "Failed to update device health:"]
  | HttpResponse _ => []
  end.

(** [deleteDevice], main.js 1214-1226. *)
Definition deleteDevice (r : fetchResult) : bool * list uiEvent :=
  match r with
  | HttpResponse true => (true, [])
  | _ => (false, [ConsoleError "Failed to delete device:"])
  end.

(** ** Info panel *)

(** [showInfoPanel(dbKey)], main.js 1320-1386. *)
Definition showInfoPanel (now : Z) (dbKey : string) (s : state) : state :=
  match JsObject.get dbKey (DEVICE_DB s) with
  | None => s
  | Some data =>
      let h := getHealthInfo (health data) in
      let pos := match findMesh (hasDbKey dbKey) s with
                 | Some (_, m) => Some (position m)
                 | None => match infoPanel s with
                           | Some shown => uiPosition shown
                           | None => None
                           end
                 end in
      let warranty :=
        if dateTruthy (warrantyExpiry data) then
          let daysRemaining := daysRemainingAt now (warrantyExpiry data) in
          Some (daysRemaining, getWarrantyStatus daysRemaining)
        else None in
      set_infoPanelActive true
        (set_infoPanel
           (Some {| uiName := d_name data; uiSerial := serial data;
                    uiHealth := health data; uiDate := lastMaintenance data;
                    uiStatus := h; uiPosition := pos;
                    uiDatabaseDevice := hasDbId data;
                    uiWarranty := warranty |}) s)
  end.

(** [hideInfoPanel()] *)
Definition hideInfoPanel (s : state) : state := set_infoPanelActive false s.

(** ** Selection Controller *)

Inductive outcome :=
| Returned
| Threw.

(** [deselectAll3D(shouldResetCamera)], main.js 2095-2122. *)
Definition deselectAll3D (shouldResetCamera : bool) (s : state) : state :=
  let s1 := match blinkTween s with
            | Some t => set_blinkTween None (tweenStop t s)
            | None => s
            end in
  let s2 := match selectedMesh s1 with
            | Some o =>
                set_selectedMesh None
                  (updateMesh o
                     (fun m => match userData_originalMat m with
                               | Some om => mesh_setMat (mat_clipToFloor (mat_clone om)) m
                               | None => m
                               end) s1)
            | None => s1
            end in
  if shouldResetCamera then set_floorPlane_constant 1000 s2 else s2.

(** [floorSelect.value = floorIndex]: the select takes the value when it
    has an option for it and shows no selection otherwise. *)
Definition selectFloorOption (floorIndex : Z) (s : state) : state :=
  set_floorSelect
    (if andb (1 <=? floorIndex)%Z (floorIndex <=? numFloors s)%Z
     then FvNum floorIndex else FvNone) s.

(** [Math.floor(y / FLOOR_HEIGHT) + 1] *)
Definition floorIndexOf (s : state) (y : Q) : Z :=
  (Qfloor (y / FLOOR_HEIGHT s) + 1)%Z.

(** [select3DMesh(mesh)], main.js 2061-2093.  Reading [data.health] of a
    mesh whose key has no [DEVICE_DB] entry throws; what ran before stays
    done. *)
Definition select3DMesh (now : Z) (o : nat) (s : state) : state * outcome :=
  let s1 := deselectAll3D false s in
  let s2 := set_selectedMesh (Some o) s1 in
  match heap s2 !! o with
  | None => (s2, Threw)
  | Some m =>
      match JsObject.get (dbKeyOf m) (DEVICE_DB s2) with
      | None => (s2, Threw)
      | Some data =>
          let h := getHealthInfo (health data) in
          let s3 := updateMesh o
                      (fun m => mesh_setMat (mat_setEmissive (three h) (8 # 10) (mat m)) m)
                      s2 in
          let (t, s4) := tweenStart (Blink o) s3 in
          let s5 := set_blinkTween (Some t) s4 in
          let centerY := (vy (position m) + vy (bboxCenter m))%Q in
          let floorIndex := floorIndexOf s5 centerY in
          let s6 := set_floorPlane_constant
                      (inject_Z floorIndex * FLOOR_HEIGHT s5)%Q s5 in
          let s7 := selectFloorOption floorIndex s6 in
          (showInfoPanel now (dbKeyOf m) s7, Returned)
      end
  end.

(** [select3DByKey(dbKey)], main.js 2056-2059. *)
Definition select3DByKey (now : Z) (dbKey : string) (s : state) : state * outcome :=
  match findMesh (hasDbKey dbKey) s with
  | Some (o, _) => select3DMesh now o s
  | None => (s, Returned)
  end.

(** ** Deleting a device *)

(** [completeMeshDeletion(mesh)], main.js 1489-1535. *)
Definition completeMeshDeletion (o : nat) (s : state) : state :=
  match heap s !! o with
  | None => s
  | Some m =>
      let calls :=
        [DisposeGeometry (geometry m)]
          ++ map DisposeTexture (textures (mat m))
          ++ [DisposeMaterial o]
          ++ map (DisposeRing o) (children m) in
      let s1 := set_disposed (disposed s ++ calls) s in
      let s2 := updateMesh o (mesh_setChildren []) s1 in
      set_scene (List.filter (fun x => negb (Nat.eqb x o)) (scene s2)) s2
  end.

(** The part of the delete handler after the remote call, main.js
    1439-1485.  The fade-out tween carries the disposal in its
    [onComplete]; the success alert is queued with [setTimeout]. *)
Definition deleteDeviceBtn_finish (meshToDelete : nat) (data : device)
    (s : state) : state * list uiEvent :=
  let s1 := set_selectedMesh None (hideInfoPanel s) in
  let s2 := set_interactableMeshes
              (removeFirst meshToDelete (interactableMeshes s1)) s1 in
  let key := match heap s2 !! meshToDelete with
             | Some m => dbKeyOf m
             | None => "undefined"
             end in
  let s3 := set_DEVICE_DB (JsObject.delete key (DEVICE_DB s2)) s2 in
  let s4 := updateMesh meshToDelete
              (fun m => mesh_setMat (mat_setOpacity true (opacity (mat m)) (mat m)) m)
              s3 in
  let (_, s5) := tweenStart (FadeOut meshToDelete) s4 in
  (s5, [Alert (MsgRemoved (hasDbId data) (serial data))]).

(** The click handler of [deleteDeviceBtn], main.js 1406-1486.
    [confirmDelete] is the answer to the [confirm] dialog, [remote] the end
    of the DELETE request (looked at only for a database device). *)
Definition deleteDeviceBtn_click (confirmDelete : bool) (remote : fetchResult)
    (s : state) : state * list uiEvent :=
  match selectedMesh s with
  | None => (s, [])
  | Some o =>
      match heap s !! o with
      | None => (s, [])
      | Some m =>
          match JsObject.get (dbKeyOf m) (DEVICE_DB s) with
          | None => (s, [Alert MsgNoDeviceInfo])
          | Some data =>
              if negb confirmDelete then (s, [])
              else if hasDbId data then
                let (success, log) := deleteDevice remote in
                if success then
                  let (s', ev) := deleteDeviceBtn_finish o data s in
                  (s', log ++ ev)
                else (s, log ++ [Alert MsgDeleteFailed])
              else deleteDeviceBtn_finish o data s
          end
      end
  end.

(** A tween reaching its end inside [TWEEN.update()].  The fade-out of a
    deleted mesh ends with opacity 0 and scale 0.1 from its last [onUpdate],
    then [onComplete] runs [completeMeshDeletion]; the scale animation of a
    dropped device ends at the scale it started from.  The highlight and
    the ring pulse repeat for ever. *)
Definition tweenComplete (t : nat) (s : state) : state :=
  match tweens s !! t with
  | Some tw =>
      match kind tw, playing tw with
      | FadeOut o, true =>
          let s1 := updateMesh o
                      (fun m => mesh_setScale (1 # 10)
                                  (mesh_setMat (mat_setOpacity (transparent (mat m)) 0 (mat m)) m))
                      s in
          completeMeshDeletion o (tweenStop t s1)
      | SpawnScale o startScale, true =>
          tweenStop t (updateMesh o (mesh_setScale startScale) s)
      | _, _ => s
      end
  | None => s
  end.

(** ** Updating a position *)

(** The click handler of [updatePositionBtn], main.js 1538-1573.  [posX],
    [posY], [posZ] are the [parseFloat] of the three inputs ([None] is NaN),
    [save] the end of the PUT request (issued only for a database
    device). *)
Definition updatePositionBtn_click (posX posY posZ : option Q)
    (save : fetchResult) (s : state) : state * list uiEvent :=
  match selectedMesh s with
  | None => (s, [])
  | Some o =>
      let data := match heap s !! o with
                  | Some m => JsObject.get (dbKeyOf m) (DEVICE_DB s)
                  | None => None
                  end in
      match posX, posY, posZ with
      | Some newX, Some newY, Some newZ =>
          let p := Vec3 newX newY newZ in
          let s1 := updateMesh o (mesh_setPosition p) s in
          if match data with Some d => hasDbId d | None => false end
          then (s1, saveDevicePosition save ++ [Alert (MsgPositionSaved p)])
          else (s1, [Alert (MsgPositionLocalOnly p)])
      | _, _, _ => (s, [Alert MsgInvalidCoordinates])
      end
  end.

(** ** Visual Instance Pool *)

(** [addWarrantyIndicator(mesh, warrantyExpiry)], main.js 1950-1983. *)
Definition addWarrantyIndicator (now : Z) (o : nat) (expiry : dateField)
    (s : state) : state :=
  if negb (dateTruthy expiry) then s
  else
    let daysRemaining := daysRemainingAt now expiry in
    match ringColorFor daysRemaining with
    | None => s
    | Some ringColor =>
        match heap s !! o with
        | None => s
        | Some m =>
            let s1 := updateMesh o
                        (mesh_setChildren
                           (children m ++ [{| ring_color := ringColor;
                                              ring_opacity := 6 # 10 |}])) s in
            if daysLt daysRemaining 30
            then snd (tweenStart (RingPulse o (length (children m))) s1)
            else s1
        end
    end.

(** [window.pendingDatabaseDevices.push(deviceData)], creating the array
    when the property is still undefined. *)
Definition enqueuePending (d : deviceData) (s : state) : state :=
  set_pendingDatabaseDevices
    (Some (match pendingDatabaseDevices s with
           | Some q => q
           | None => []
           end ++ [d])) s.

(** [x || y] on a string that may be missing. *)
Definition strOr (x : option string) (y : string) : string :=
  match x with
  | Some (String c r) => String c r
  | _ => y
  end.

(** The [DEVICE_DB] entry written for a spawned database device. *)
Definition deviceOfData (d : deviceData) : device :=
  {| db_id := Some (id d);
     d_name := product_name (product d);
     d_type := product_type (product d);
     d_manufacturer := product_manufacturer (product d);
     serial := serial_number d;
     health := health_score d;
     lastMaintenance := match last_maintenance d with
                        | Some shown => shown
                        | None => "N/A"
                        end;
     location := "Floor " +:+ pretty (floor_number d);
     notes := strOr (dd_notes d) (product_description (product d));
     warrantyExpiry := warranty_expiry d |}.

(** [spawnDeviceFromDatabase(deviceData)], main.js 1886-1948; the result is
    the clone, or [None] for the [null] that marks a pending spawn.  A
    [rotation_y] that is missing or [0] is falsy and leaves the rotation the
    clone took from the template. *)
Definition spawnDeviceFromDatabase (now : Z) (deviceData : deviceData)
    (s : state) : state * option nat :=
  let meshIdentifier := mesh_identifier (product deviceData) in
  match findMesh (fun m => includes (name m) meshIdentifier) s with
  | None => (enqueuePending deviceData s, None)
  | Some (_, templateMesh) =>
      let dbKey := dbKeyOfId (id deviceData) in
      let clonedMaterial := mat_clone (mat templateMesh) in
      let clone :=
        {| name := dbKey;
           position := Vec3 (position_x deviceData) (position_y deviceData)
                            (position_z deviceData);
           rotation_deg := match rotation_y deviceData with
                           | Some r => if Qeq_bool r 0
                                       then rotation_deg templateMesh else r
                           | None => rotation_deg templateMesh
                           end;
           scale := scale templateMesh;
           geometry := geometry templateMesh;
           bboxCenter := bboxCenter templateMesh;
           mat := mat_clipToFloor clonedMaterial;
           userData_dbKey := Some dbKey;
           userData_originalMat := Some (mat_clone clonedMaterial);
           children := children templateMesh |} in
      let (o, s1) := allocMesh clone s in
      let s2 := set_DEVICE_DB
                  (JsObject.set dbKey (deviceOfData deviceData) (DEVICE_DB s1)) s1 in
      let s3 := set_interactableMeshes (interactableMeshes s2 ++ [o]) s2 in
      let s4 := set_scene (scene s3 ++ [o]) s3 in
      (addWarrantyIndicator now o (warranty_expiry deviceData) s4, Some o)
  end.

(** [spawnDeviceAndSave(typeKey, position)], main.js 2201-2251, for a drop
    from the palette.  [productId] is the catalogue entry found for
    [typeKey] ([None] when there is none), [created] the device record the
    POST request returned ([None] when [createDevice] caught a failure and
    returned [null]); the drop position travels inside [created]. *)
Definition spawnDeviceAndSave (now : Z) (typeKey : string) (productId : option N)
    (created : option deviceData) (s : state) : state * option nat :=
  match findMesh (fun m => includes (name m) typeKey) s with
  | None => (s, None)
  | Some _ =>
      match productId, created with
      | Some _, Some newDevice =>
          let (s1, spawned) := spawnDeviceFromDatabase now newDevice s in
          match spawned with
          | Some o =>
              match heap s1 !! o with
              | Some m =>
                  (snd (tweenStart (SpawnScale o (scale m))
                          (updateMesh o (mesh_setScale 0) s1)), Some o)
              | None => (s1, Some o)
              end
          | None => (s1, None)
          end
      | _, _ => (s, None)
      end
  end.

(** The end of the loader callback, main.js 2040-2046: [forEach] visits the
    entries the array holds when it starts (a spawn that fails again pushes
    behind them), then the array is replaced by an empty one. *)
Definition drainPending (now : Z) (s : state) : state :=
  match pendingDatabaseDevices s with
  | None => s
  | Some queue =>
      set_pendingDatabaseDevices (Some [])
        (fold_left (fun st d => fst (spawnDeviceFromDatabase now d st)) queue s)
  end.

(** ** Asset Provider: the GLB loader callback *)

Record template := Template {
  t_name : string;
  t_type : string;
  t_manufacturer : string;
  t_model : string;
  t_notes : string
}.

(** [DEVICE_TEMPLATES], main.js 1084-1127, in the order of the literal. *)
Definition DEVICE_TEMPLATES : JsObject.t template :=
  [ ("Galaxy_VL",
     {| t_name := "Galaxy VL UPS"; t_type := "Uninterruptible Power Supply";
        t_manufacturer := "Schneider Electric"; t_model := "Galaxy VL 500kW";
        t_notes := "High-efficiency scalable power protection." |});
    ("NetShelter",
     {| t_name := "NetShelter SX Rack"; t_type := "Server Rack Enclosure";
        t_manufacturer := "APC by Schneider"; t_model := "AR3100";
        t_notes := "Standard enclosure for low to medium density." |});
    ("PremSet",
     {| t_name := "Premset Switchgear"; t_type := "MV Switchgear";
        t_manufacturer := "Schneider Electric"; t_model := "Premset 15kV";
        t_notes := "Shielded Solid Insulation System (2SIS)." |});
    ("PowerLogic_ION",
     {| t_name := "PowerLogic ION9000"; t_type := "Power Quality Meter";
        t_manufacturer := "Schneider Electric"; t_model := "ION9000";
        t_notes := "Class 0.1S accuracy, PQ analysis." |});
    ("EVlink_Pro",
     {| t_name := "EVlink Pro AC"; t_type := "EV Charging Station";
        t_manufacturer := "Schneider Electric"; t_model := "EVlink Pro";
        t_notes := "Smart charging for fleets and buildings." |});
    ("Roof_Solar_Array",
     {| t_name := "EcoStruxure Solar"; t_type := "Photovoltaic Array";
        t_manufacturer := "Schneider Electric"; t_model := "Conext CL";
        t_notes := "Rooftop renewable energy generation." |}) ].

(** [getDeviceTypeFromMeshName(meshName)], main.js 1816-1821. *)
Definition getDeviceTypeFromMeshName (meshName : string) : option (string * template) :=
  List.find (fun kt => includes meshName (fst kt)) DEVICE_TEMPLATES.

(** One mesh of the loaded model, main.js 1995-2033.  [child] is the mesh
    as the loader built it, [rolled] the value of
    [Math.floor(Math.random() * 40) + 60] drawn for it. *)
Definition loadChild (child : mesh) (rolled : float) (s : state) : state :=
  let withMat :=
    mesh_setMat
      (let c := mat_clipToFloor (mat_clone (mat child)) in
       {| baseColor := baseColor c; emissive := emissive c;
          emissiveIntensity := emissiveIntensity c; opacity := opacity c;
          transparent := transparent c; clippingPlanes := clippingPlanes c;
          clipShadows := true; textures := textures c |}) child in
  match getDeviceTypeFromMeshName (name child) with
  | None =>
      let (o, s1) := allocMesh withMat s in
      set_scene (scene s1 ++ [o]) s1
  | Some (type, template) =>
      let dbKey := name child in
      let count := match JsObject.get type (typeCounters s) with
                   | Some (S n) => S n
                   | _ => 1%nat
                   end in
      let countStr := padStart2 (pretty count) in
      let serialNo :=
        "SN-" +:+ toUpperCase (String.substring 0 3 type) +:+ "-" +:+ countStr in
      let s0 := set_typeCounters (JsObject.set type (S count) (typeCounters s)) s in
      let db :=
        if existsb (fun d => String.eqb (serial d) serialNo)
                   (JsObject.values (DEVICE_DB s0))
        then DEVICE_DB s0
        else JsObject.set dbKey
               {| db_id := None;
                  d_name := t_name template;
                  d_type := t_type template;
                  d_manufacturer := t_manufacturer template;
                  serial := serialNo;
                  health := rolled;
                  lastMaintenance := "2023-09-15";
                  location := "Warehouse Floor "
                                +:+ pretty (floorIndexOf s0 (vy (position child)));
                  notes := t_notes template;
                  warrantyExpiry := NoDate |} (DEVICE_DB s0) in
      let registered :=
        mesh_setOriginalMat (Some (mat_clone (mat withMat)))
          (mesh_setDbKey (Some dbKey) withMat) in
      let (o, s1) := allocMesh registered (set_DEVICE_DB db s0) in
      set_interactableMeshes (interactableMeshes s1 ++ [o])
        (set_scene (scene s1 ++ [o]) s1)
  end.

(** [model.traverse(child => ...)], main.js 1995-2033, over the meshes of
    the model. *)
Definition loadModel (model : list (mesh * float)) (s : state) : state :=
  fold_left (fun st c => loadChild (fst c) (snd c) st) model s.

(** The loader callback, main.js 1991-2047: the traversal of the model, then
    the drain of the pending spawns.  [loadWarehouseFromDatabase()] is
    started in between; it suspends at its first [await] before it touches
    the state, and its continuation is [loadWarehouse_resume]. *)
Definition loader_onLoad (now : Z) (model : list (mesh * float)) (s : state) : state :=
  drainPending now (loadModel model s).

(** [updateFloorSelector(numFloors)], main.js 1866-1884: the option of
    level 1 is the selected one; without it the first option, ['all'],
    stays selected. *)
Definition updateFloorSelector (n : Z) (s : state) : state :=
  set_floorSelect (if (1 <=? n)%Z then FvNum 1 else FvAll) (set_numFloors n s).

(** The continuation of [loadWarehouseFromDatabase], main.js 1847-1860,
    once the configuration and the device list have arrived;
    [floor_height] is [None] when the field is missing. *)
Definition loadWarehouse_resume (now : Z) (floor_height : option Q)
    (num_floors : Z) (devices : list deviceData) (s : state) : state :=
  let h := match floor_height with
           | Some q => if Qeq_bool q 0 then 6%Q else q
           | None => 6%Q
           end in
  fold_left (fun st d => fst (spawnDeviceFromDatabase now d st)) devices
    (updateFloorSelector num_floors (set_FLOOR_HEIGHT h s)).

(** ** Floor / Level Filter *)

(** The [change] handler of the floor selector, main.js 1774-1807;
    [None] is the value ['all'], [Some n] the option of level [n]. *)
Definition floorSelect_change (choice : option Z) (s : state) : state :=
  match choice with
  | None => set_floorPlane_constant 1000 (set_floorSelect FvAll s)
  | Some floorNum =>
      let s0 := set_floorSelect (FvNum floorNum) s in
      set_floorPlane_constant (inject_Z floorNum * FLOOR_HEIGHT s0)%Q s0
  end.

(** ** 2D node view

    The view toggle with [initNodeCanvas], which centres the offsets on the
    canvas, is not modelled: the offsets are taken as they are. *)

(** Pixels per metre, the local [scale2d] of [renderNodeView] and
    [getNodeAtPosition]. *)
Definition scale2d : Q := 30.

(** The projection of main.js 2575-2577 and 2725-2726. *)
Definition toTopDown (p : vec3) : Q * Q :=
  ((vx p * scale2d)%Q, (- vz p * scale2d)%Q).


(** The 'world coordinates' of the mouse, main.js 2710-2712. *)
Definition fromCanvas (v : nodeViewState) (mouse : Q * Q) : Q * Q :=
  (((fst mouse - offsetX v) / nv_scale v)%Q,
   ((snd mouse - offsetY v) / nv_scale v)%Q).

(** The floor test of main.js 2562-2567 and 2719-2723 for one key. *)
Definition onCurrentFloor (s : state) (key : string) : option mesh :=
  match findMesh (hasDbKey key) s with
  | Some (_, m) =>
      if (floorIndexOf s (vy (position m)) =? floorValOr1 (floorSelect s))%Z
      then Some m else None
  | None => None
  end.




(** [Math.sqrt(dx ** 2 + dy ** 2) < 20], decided on the squares. *)
Definition within20 (a b : Q * Q) : bool :=
  let dx := (fst a - fst b)%Q in
  let dy := (snd a - snd b)%Q in
  negb (Qle_bool 400 (dx * dx + dy * dy)).

(** [getNodeAtPosition(e)], main.js 2705-2735; [mouse] is the position
    relative to the canvas. *)
Definition getNodeAtPosition (mouse : Q * Q) (s : state) : option string :=
  let world := fromCanvas (nodeView s) mouse in
  match List.find (fun kd => match onCurrentFloor s (fst kd) with
                             | Some m => within20 world (toTopDown (position m))
                             | None => false
                             end) (DEVICE_DB s) with
  | Some (key, _) => Some key
  | None => None
  end.

Definition nv_setScale (k : Q) (v : nodeViewState) : nodeViewState :=
  {| offsetX := offsetX v; offsetY := offsetY v; nv_scale := k;
     isDragging := isDragging v; dragStartX := dragStartX v;
     dragStartY := dragStartY v; hoveredNode := hoveredNode v;
     minScale := minScale v; maxScale := maxScale v |}.

Definition nv_setOffset (x y : Q) (v : nodeViewState) : nodeViewState :=
  {| offsetX := x; offsetY := y; nv_scale := nv_scale v;
     isDragging := isDragging v; dragStartX := dragStartX v;
     dragStartY := dragStartY v; hoveredNode := hoveredNode v;
     minScale := minScale v; maxScale := maxScale v |}.

(** The [wheel] handler of the node canvas, main.js 2671-2682. *)
Definition nodeCanvas_wheel (deltaYPositive : bool) (s : state) : state :=
  let delta := if deltaYPositive then (9 # 10) else (11 # 10) in
  let newScale := (nv_scale (nodeView s) * delta)%Q in
  if andb (Qle_bool (minScale (nodeView s)) newScale)
          (Qle_bool newScale (maxScale (nodeView s)))
  then set_nodeView (nv_setScale newScale (nodeView s)) s
  else s.

Definition nv_setDrag (dragging : bool) (x y : Q) (v : nodeViewState) : nodeViewState :=
  {| offsetX := offsetX v; offsetY := offsetY v; nv_scale := nv_scale v;
     isDragging := dragging; dragStartX := x; dragStartY := y;
     hoveredNode := hoveredNode v;
     minScale := minScale v; maxScale := maxScale v |}.

Definition nv_setHovered (k : option string) (v : nodeViewState) : nodeViewState :=
  {| offsetX := offsetX v; offsetY := offsetY v; nv_scale := nv_scale v;
     isDragging := isDragging v; dragStartX := dragStartX v;
     dragStartY := dragStartY v; hoveredNode := k;
     minScale := minScale v; maxScale := maxScale v |}.

(** The [mousedown] handler of the node canvas, main.js 2639-2646. *)
Definition nodeCanvas_mousedown (clientX clientY : Q) (s : state) : state :=
  set_nodeView
    (nv_setDrag true (clientX - offsetX (nodeView s))%Q
                     (clientY - offsetY (nodeView s))%Q (nodeView s)) s.

(** The [mouseup] and [mouseleave] handlers, main.js 2661-2669. *)
Definition nodeCanvas_mouseup (s : state) : state :=
  set_nodeView
    (nv_setDrag false (dragStartX (nodeView s)) (dragStartY (nodeView s))
                (nodeView s)) s.

(** The pan of a drag, main.js 2652-2653. *)
Definition nodeCanvas_pan (clientX clientY : Q) (s : state) : state :=
  set_nodeView
    (nv_setOffset (clientX - dragStartX (nodeView s))%Q
                  (clientY - dragStartY (nodeView s))%Q (nodeView s)) s.

(** [checkNodeHover(e)], main.js 2696-2702; [mouse] is the position
    relative to the canvas. *)
Definition checkNodeHover (mouse : Q * Q) (s : state) : state :=
  set_nodeView (nv_setHovered (getNodeAtPosition mouse s) (nodeView s)) s.

(** The [click] handler of the node canvas, main.js 2684-2692. *)
Definition nodeCanvas_click (now : Z) (mouse : Q * Q) (s : state) : state :=
  match getNodeAtPosition mouse s with
  | Some clickedNode => showInfoPanel now clickedNode s
  | None => s
  end.

(** The [mousemove] handler, main.js 2648-2659; [rectLeft], [rectTop] are
    the corner of the canvas on the page. *)
Definition nodeCanvas_mousemove (clientX clientY rectLeft rectTop : Q)
    (s : state) : state :=
  if isDragging (nodeView s)
  then nodeCanvas_pan clientX clientY s
  else checkNodeHover ((clientX - rectLeft)%Q, (clientY - rectTop)%Q) s.

(** The state of the script when it has run to its end, before any
    callback: nothing loaded, nothing selected, as declared at main.js
    1129, 1743, 1771, 1813-1814, 1989 and 2386-2396. *)
Definition initialState (numFloorsInPage : Z) : state :=
  {| heap := []; interactableMeshes := []; scene := [];
     DEVICE_DB := []; pendingDatabaseDevices := None; typeCounters := [];
     selectedMesh := None; blinkTween := None; tweens := [];
     disposed := []; floorPlane_constant := 1000; FLOOR_HEIGHT := 6;
     floorSelect := FvAll; numFloors := numFloorsInPage;
     infoPanel := None; infoPanelActive := false;
     nodeView := {| offsetX := 0; offsetY := 0; nv_scale := 1;
                    isDragging := false; dragStartX := 0; dragStartY := 0;
                    hoveredNode := None; minScale := 3 # 10; maxScale := 3 |} |}.

(** ** Well-formed states and observations *)

Fixpoint playingFrom (i : nat) (l : list tween) : list (nat * tweenKind) :=
  match l with
  | [] => []
  | tw :: l' =>
      (if playing tw then [(i, kind tw)] else []) ++ playingFrom (S i) l'
  end.

Definition isBlink (k : tweenKind) : bool :=
  match k with Blink _ => true | _ => false end.

(** The highlight animations that are running, with their identities. *)
Definition playingBlinks (s : state) : list (nat * tweenKind) :=
  List.filter (fun it => isBlink (snd it)) (playingFrom 0 (tweens s)).

(** Mesh [o] carries a running highlight animation. *)
Definition highlighted (s : state) (o : nat) : bool :=
  existsb (fun it => match snd it with
                     | Blink o' => Nat.eqb o o'
                     | _ => false
                     end) (playingBlinks s).

(** The only highlight animation that may be running is the one
    [state3D.blinkTween] refers to. *)
Definition blinkOwned (s : state) : bool :=
  forallb (fun it => match blinkTween s with
                     | Some t => Nat.eqb (fst it) t
                     | None => false
                     end) (playingBlinks s).

(** Every entry of [interactableMeshes] is an object of the store, and no
    object is listed twice. *)
Definition poolValid (s : state) : bool :=
  forallb (fun o => (o <? length (heap s))%nat) (interactableMeshes s)
  && bool_decide (NoDup (interactableMeshes s)).

(** The Visual Instances registered under [key]. *)
Definition instancesOf (key : string) (s : state) : list (nat * mesh) :=
  List.filter (fun om => hasDbKey key (snd om))
              (meshesOf s (interactableMeshes s)).

(** No key has two Visual Instances. *)
Definition keysUnique (s : state) : bool :=
  bool_decide (NoDup (map (fun om => userData_dbKey (snd om))
                          (meshesOf s (interactableMeshes s)))).

(** A template for [meshIdentifier] is among the interactable meshes. *)
Definition templateLoaded (meshIdentifier : string) (s : state) : bool :=
  match findMesh (fun m => includes (name m) meshIdentifier) s with
  | Some _ => true
  | None => false
  end.

(** The material [deselectAll3D] puts back from the snapshot [om]. *)
Definition restoredMat (om : material) : material :=
  mat_clipToFloor (mat_clone om).


(** ** Bulk reload *)

(** The reload after a successful Excel upload, main.js 2283-2298, on the
    device list the Persistence Service returns: the registry entries and
    the interactable meshes of database devices are dropped by key and by
    name, then every device is spawned again.  The dropped meshes are not
    taken out of the scene. *)
Definition reloadFromDatabase (now : Z) (devices : list deviceData) (s : state) : state :=
  let db := List.filter (fun kd => negb (startsWith (fst kd) "db_")) (DEVICE_DB s) in
  let kept := List.filter
                (fun o => match heap s !! o with
                          | Some m => negb (startsWith (name m) "db_")
                          | None => true
                          end) (interactableMeshes s) in
  fold_left (fun st d => fst (spawnDeviceFromDatabase now d st)) devices
    (set_interactableMeshes kept (set_DEVICE_DB db s)).

(** ** The program as a machine driven by events

    Each event is one callback run to its end; the parameters are what the
    callback reads from outside the state (the clock, the user's input, the
    end of a remote call).  A click is on an interactable mesh itself. *)
Inductive event :=
| ModelLoaded (now : Z) (model : list (mesh * float))
| WarehouseLoaded (now : Z) (floor_height : option Q) (num_floors : Z)
                  (devices : list deviceData)
| ExcelInstalled (now : Z) (devices : list deviceData)
| PaletteDropped (now : Z) (typeKey : string) (productId : option N)
                 (created : option deviceData)
| SearchHit (now : Z) (dbKey : string)
| MeshClicked (now : Z) (o : nat)
| PanelClosed
| DeleteClicked (confirmDelete : bool) (remote : fetchResult)
| UpdatePositionClicked (posX posY posZ : option Q) (save : fetchResult)
| FloorChosen (choice : option Z)
| Wheel (deltaYPositive : bool)
| MouseDown (clientX clientY : Q)
| MouseMoved (clientX clientY rectLeft rectTop : Q)
| MouseUp
| NodeClicked (now : Z) (mouse : Q * Q)
| TweenEnded (t : nat).

Definition handle (e : event) (s : state) : state :=
  match e with
  | ModelLoaded now model => loader_onLoad now model s
  | WarehouseLoaded now fh nf devices => loadWarehouse_resume now fh nf devices s
  | ExcelInstalled now devices => reloadFromDatabase now devices s
  | PaletteDropped now typeKey productId created =>
      fst (spawnDeviceAndSave now typeKey productId created s)
  | SearchHit now dbKey => fst (select3DByKey now dbKey s)
  | MeshClicked now o =>
      if existsb (Nat.eqb o) (interactableMeshes s)
      then fst (select3DMesh now o s) else s
  | PanelClosed => deselectAll3D true (hideInfoPanel s)
  | DeleteClicked c r => fst (deleteDeviceBtn_click c r s)
  | UpdatePositionClicked x y z r => fst (updatePositionBtn_click x y z r s)
  | FloorChosen c => floorSelect_change c s
  | Wheel b => nodeCanvas_wheel b s
  | MouseDown x y => nodeCanvas_mousedown x y s
  | MouseMoved x y l t => nodeCanvas_mousemove x y l t s
  | MouseUp => nodeCanvas_mouseup s
  | NodeClicked now mouse => nodeCanvas_click now mouse s
  | TweenEnded t => tweenComplete t s
  end.

(** The state after a sequence of events. *)
Definition run (es : list event) (s : state) : state :=
  fold_left (fun st e => handle e st) es s.

(** The zoom bounds of the node view are positive and the zoom factor is
    not below the lower one. *)
Definition zoomBounded (v : nodeViewState) : Prop :=
  (0 < minScale v)%Q /\ (minScale v <= nv_scale v)%Q.

(** ** A small facility, built by the operations themselves

    Three meshes come with the model (two of them device templates), then
    the Persistence Service delivers three devices on floors 1 to 3. *)

Definition sampleMaterial : material :=
  {| baseColor := 0x808080; emissive := 0; emissiveIntensity := 1;
     opacity := 1; transparent := false; clippingPlanes := ClipNone;
     clipShadows := false; textures := [7%nat] |}.

Definition sampleChild (n : string) (g : nat) (x y z : Q) : mesh :=
  {| name := n; position := Vec3 x y z; rotation_deg := 0; scale := 1;
     geometry := g; bboxCenter := Vec3 0 (1 # 2) 0; mat := sampleMaterial;
     userData_dbKey := None; userData_originalMat := None; children := [] |}.

Definition sampleModel : list (mesh * float) :=
  [ (sampleChild "Walls" 0 0 0 0, 60%float);
    (sampleChild "Galaxy_VL_01" 1 2 0 3, 75%float);
    (sampleChild "NetShelter_A" 2 (-4) 6 1, 88%float) ].

Definition sampleNow : Z := 1700000000000.

Definition sampleData (i : N) (ident sn : string) (x y z : Q) (h : float)
    (floor : Z) (expiry : dateField) : deviceData :=
  {| id := i;
     product := {| mesh_identifier := ident; product_name := "Device";
                   product_type := "Type"; product_manufacturer := "Maker";
                   product_description := "From the catalogue" |};
     position_x := x; position_y := y; position_z := z;
     rotation_y := Some 90%Q; serial_number := sn; health_score := h;
     last_maintenance := None; floor_number := floor; dd_notes := None;
     warranty_expiry := expiry |}.

(** Ten days of warranty left on device 1, 45 on device 2, none recorded on
    device 3. *)
Definition sampleDevices : list deviceData :=
  [ sampleData 1 "Galaxy_VL" "SE-0001" 5 0 (-2) 45%float 1
      (DateAt (sampleNow + 10 * MS_PER_DAY + 5000));
    sampleData 2 "NetShelter" "SE-0002" 1 7 1 79%float 2
      (DateAt (sampleNow + 45 * MS_PER_DAY));
    sampleData 3 "Galaxy_VL" "SE-0003" (-3) 13 4 92.5%float 3 NoDate ].

Definition loadedState : state :=
  loader_onLoad sampleNow sampleModel (initialState 3).

Definition twinState : state :=
  loadWarehouse_resume sampleNow (Some 6%Q) 3 sampleDevices loadedState.


(** * Properties *)

(** ** The order of IEEE doubles

    [FloatAxioms] relates the primitive comparisons to [SFcompare] on the
    specification floats; the order facts are proved there. *)
Section SpecFloatOrder.

Lemma SFcompare_antisym x y :
  SFcompare y x = option_map CompOpp (SFcompare x y).
Proof.
  destruct x as [[]|[]| |[] m1 e1], y as [[]|[]| |[] m2 e2]; simpl; try reflexivity;
    change (Pos.compare_cont Eq m2 m1) with (Pos.compare m2 m1);
    change (Pos.compare_cont Eq m1 m2) with (Pos.compare m1 m2);
    rewrite (Z.compare_antisym e1 e2), (Pos.compare_antisym m1 m2);
    destruct (e1 ?= e2)%Z; simpl; try reflexivity;
    destruct (m1 ?= m2)%positive; reflexivity.
Qed.

Lemma SFltb_not_SFleb x y : SFltb x y = true -> SFleb y x = false.
Proof.
  unfold SFltb, SFleb. rewrite (SFcompare_antisym x y).
  destruct (SFcompare x y) as [[]|]; simpl; congruence.
Qed.

Lemma SFleb_trans x y z :
  SFleb x y = true -> SFleb y z = true -> SFleb x z = true.
Proof.
  unfold SFleb.
  destruct x as [[]|[]| |[] m1 e1], y as [[]|[]| |[] m2 e2], z as [[]|[]| |[] m3 e3];
    simpl; try congruence;
    repeat match goal with
           | |- context [Pos.compare_cont Eq ?a ?b] =>
               change (Pos.compare_cont Eq a b) with (Pos.compare a b)
           end;
    destruct (Z.compare_spec e1 e2), (Z.compare_spec e2 e3), (Z.compare_spec e1 e3);
    simpl; try congruence; try lia;
    destruct (Pos.compare_spec m1 m2), (Pos.compare_spec m2 m3), (Pos.compare_spec m1 m3);
    simpl; try congruence; try lia.
Qed.

Lemma SFeqb_irrefl_nan x : SFeqb x x = false -> x = S754_nan.
Proof.
  unfold SFeqb.
  destruct x as [[]|[]| |[] m e]; simpl; try congruence;
    rewrite Z.compare_refl;
    change (Pos.compare_cont Eq m m) with (Pos.compare m m);
    rewrite Pos.compare_refl; simpl; congruence.
Qed.

Lemma SFleb_nan_r x : SFleb x S754_nan = false.
Proof. destruct x as [[]|[]| |[] m e]; reflexivity. Qed.

Lemma leb_trans (a b c : float) :
  PrimFloat.leb a b = true -> PrimFloat.leb b c = true -> PrimFloat.leb a c = true.
Proof. rewrite !FloatAxioms.leb_spec. apply SFleb_trans. Qed.

Lemma ltb_not_leb (a b : float) :
  PrimFloat.ltb a b = true -> PrimFloat.leb b a = false.
Proof. rewrite FloatAxioms.ltb_spec, FloatAxioms.leb_spec. apply SFltb_not_SFleb. Qed.

Lemma leb_nan_r (a x : float) :
  PrimFloat.is_nan x = true -> PrimFloat.leb a x = false.
Proof.
  unfold PrimFloat.is_nan. intros H.
  apply negb_true_iff in H. rewrite FloatAxioms.eqb_spec in H.
  rewrite FloatAxioms.leb_spec, (SFeqb_irrefl_nan _ H). apply SFleb_nan_r.
Qed.

End SpecFloatOrder.

(** ** Status Deriver *)
Section StatusDeriver.

Lemma getHealthInfo_healthy score :
  PrimFloat.leb 80 score = true -> getHealthInfo score = HEALTHY.
Proof. unfold getHealthInfo. intros ->. reflexivity. Qed.

Lemma getHealthInfo_warning score :
  PrimFloat.leb 80 score = false -> PrimFloat.leb 50 score = true ->
  getHealthInfo score = WARNING.
Proof. unfold getHealthInfo. intros -> ->. reflexivity. Qed.

Lemma getHealthInfo_critical score :
  PrimFloat.leb 50 score = false -> getHealthInfo score = CRITICAL.
Proof.
  unfold getHealthInfo. intros H.
  destruct (PrimFloat.leb 80 score) eqn:H80.
  - assert (PrimFloat.leb 50 score = true) as H50
      by (apply (leb_trans 50 80 score); [reflexivity | exact H80]).
    congruence.
  - rewrite H. reflexivity.
Qed.

Lemma getHealthInfo_cases score :
  getHealthInfo score = HEALTHY \/ getHealthInfo score = WARNING
  \/ getHealthInfo score = CRITICAL.
Proof.
  unfold getHealthInfo.
  destruct (PrimFloat.leb 80 score); [tauto |].
  destruct (PrimFloat.leb 50 score); tauto.
Qed.

Lemma getHealthInfo_monotone a b :
  PrimFloat.leb a b = true ->
  tierRank (getHealthInfo a) <= tierRank (getHealthInfo b).
Proof.
  intros Hab. unfold getHealthInfo.
  destruct (PrimFloat.leb 80 a) eqn:Ha80.
  - rewrite (leb_trans 80 a b Ha80 Hab). reflexivity.
  - destruct (PrimFloat.leb 50 a) eqn:Ha50.
    + rewrite (leb_trans 50 a b Ha50 Hab).
      destruct (PrimFloat.leb 80 b); vm_compute; lia.
    + destruct (PrimFloat.leb 80 b); [vm_compute; lia |].
      destruct (PrimFloat.leb 50 b); vm_compute; lia.
Qed.

(** C3.  The tier of a health score is Healthy from 80 on, Warning from 50
    up to but excluding 80 and Critical below 50; 80 itself is Healthy and
    79 is Warning; a larger score never has a lower tier. *)
Theorem getHealthInfo_tiers :
  (forall score, PrimFloat.leb 80 score = true -> getHealthInfo score = HEALTHY)
  /\ (forall score, PrimFloat.leb 50 score = true -> PrimFloat.ltb score 80 = true ->
                    getHealthInfo score = WARNING)
  /\ (forall score, PrimFloat.ltb score 50 = true -> getHealthInfo score = CRITICAL)
  /\ getHealthInfo 80 = HEALTHY
  /\ getHealthInfo 79 = WARNING
  /\ (forall a b, PrimFloat.leb a b = true ->
                  tierRank (getHealthInfo a) <= tierRank (getHealthInfo b)).
Proof.
  split; [exact getHealthInfo_healthy |].
  split.
  { intros score H50 H80. apply getHealthInfo_warning; [| exact H50].
    apply ltb_not_leb, H80. }
  split.
  { intros score H. apply getHealthInfo_critical, ltb_not_leb, H. }
  split; [reflexivity |].
  split; [reflexivity |].
  exact getHealthInfo_monotone.
Qed.

Lemma getHealthInfo_tiers_witness :
  getHealthInfo 92.5 = HEALTHY /\ getHealthInfo 64 = WARNING
  /\ getHealthInfo 45 = CRITICAL
  /\ tierRank (getHealthInfo 45) <= tierRank (getHealthInfo 92.5).
Proof.
  destruct getHealthInfo_tiers as (H1 & H2 & H3 & _ & _ & H6).
  split; [apply H1; reflexivity |].
  split; [apply H2; reflexivity |].
  split; [apply H3; reflexivity |].
  apply H6; reflexivity.
Defined.

(** C10.  [getHealthInfo] has a value for every double, and the value is
    one of the three fixed records, which are pairwise different; no range
    is checked: every score below 50, however negative, and NaN give
    Critical, and every score from 80 on, however large, gives Healthy. *)
Theorem getHealthInfo_total (score : float) :
  (getHealthInfo score = HEALTHY \/ getHealthInfo score = WARNING
   \/ getHealthInfo score = CRITICAL)
  /\ (HEALTHY <> WARNING /\ WARNING <> CRITICAL /\ HEALTHY <> CRITICAL)
  /\ (PrimFloat.ltb score 50 = true \/ PrimFloat.is_nan score = true ->
      getHealthInfo score = CRITICAL)
  /\ (PrimFloat.leb 80 score = true -> getHealthInfo score = HEALTHY).
Proof.
  split; [apply getHealthInfo_cases |].
  split; [repeat split; discriminate |].
  split; [| apply getHealthInfo_healthy].
  intros [H | H]; apply getHealthInfo_critical.
  - apply ltb_not_leb, H.
  - apply leb_nan_r, H.
Qed.

Lemma getHealthInfo_total_witness :
  getHealthInfo (-250) = CRITICAL /\ getHealthInfo nan = CRITICAL
  /\ getHealthInfo neg_infinity = CRITICAL
  /\ getHealthInfo 1000000 = HEALTHY /\ getHealthInfo infinity = HEALTHY.
Proof.
  split; [apply (getHealthInfo_total (-250)); left; reflexivity |].
  split; [apply (getHealthInfo_total nan); right; reflexivity |].
  split; [apply (getHealthInfo_total neg_infinity); left; reflexivity |].
  split; [apply (getHealthInfo_total 1000000); reflexivity |].
  apply (getHealthInfo_total infinity); reflexivity.
Defined.

End StatusDeriver.

(** ** Warranty tier and ring *)
Section Warranty.

Lemma lookup_updateMesh o f s :
  heap (updateMesh o f s) !! o = f <$> heap s !! o.
Proof. unfold updateMesh. simpl. apply list_lookup_alter_eq. Qed.

Lemma getWarrantyStatus_tiers (d : Z) :
  getWarrantyStatus (Some d) =
  if (d <? 0)%Z then {| color := "#ef4444"; status := "expired" |}
  else if (d <? 30)%Z then {| color := "#f59e0b"; status := "critical" |}
  else if (d <? 90)%Z then {| color := "#eab308"; status := "warning" |}
  else {| color := "#22c55e"; status := "healthy" |}.
Proof. reflexivity. Qed.

(** The ring colour is the status colour, and there is a ring exactly
    for the statuses other than healthy. *)
Lemma ringColor_matches_status (d : option Z) :
  match ringColorFor d with
  | Some c => cssColor c = color (getWarrantyStatus d)
              /\ status (getWarrantyStatus d) <> "healthy"
  | None => status (getWarrantyStatus d) = "healthy"
  end.
Proof.
  unfold ringColorFor, getWarrantyStatus.
  destruct (daysLt d 0); [split; [reflexivity | discriminate] |].
  destruct (daysLt d 30); [split; [reflexivity | discriminate] |].
  destruct (daysLt d 90); [split; [reflexivity | discriminate] |].
  reflexivity.
Qed.

(** C7.  With [d = floor((expiry - now) / 86400000)], the warranty status
    is expired for [d < 0], critical for [0 <= d < 30], warning for
    [30 <= d < 90] and healthy from 90 on.  The info panel shows that
    status; [addWarrantyIndicator] leaves the mesh alone when the status
    is healthy and otherwise adds one ring, in the colour of the status,
    starting a pulse on it exactly when [d < 30]. *)
Theorem warranty_tier_and_ring (now expiry : Z) (o : nat) (m : mesh)
    (key : string) (data : device) (s : state) :
  heap s !! o = Some m ->
  JsObject.get key (DEVICE_DB s) = Some data ->
  warrantyExpiry data = DateAt expiry ->
  let d := ((expiry - now) `div` 86400000)%Z in
  let st := getWarrantyStatus (daysRemainingAt now (DateAt expiry)) in
  let s' := addWarrantyIndicator now o (DateAt expiry) s in
  daysRemainingAt now (DateAt expiry) = Some d
  /\ ((d < 0)%Z -> status st = "expired")
  /\ ((0 <= d < 30)%Z -> status st = "critical")
  /\ ((30 <= d < 90)%Z -> status st = "warning")
  /\ ((90 <= d)%Z -> status st = "healthy")
  /\ (uiWarranty <$> infoPanel (showInfoPanel now key s)) = Some (Some (Some d, st))
  /\ (status st = "healthy" -> s' = s)
  /\ (status st <> "healthy" ->
      exists c,
        heap s' !! o = Some (mesh_setChildren
                               (children m ++ [{| ring_color := c; ring_opacity := 6 # 10 |}]) m)
        /\ cssColor c = color st
        /\ tweens s' = tweens s ++
             (if (d <? 30)%Z
              then [{| kind := RingPulse o (length (children m)); playing := true |}]
              else [])).
Proof.
  intros Hm Hdata Hexp d st s'.
  assert (daysRemainingAt now (DateAt expiry) = Some d) as Hd by reflexivity.
  split; [exact Hd |].
  subst st. rewrite Hd, getWarrantyStatus_tiers.
  split. { intros H. destruct (Z.ltb_spec d 0); [reflexivity | lia]. }
  split. { intros H. destruct (Z.ltb_spec d 0); [lia |].
           destruct (Z.ltb_spec d 30); [reflexivity | lia]. }
  split. { intros H. destruct (Z.ltb_spec d 0); [lia |].
           destruct (Z.ltb_spec d 30); [lia |].
           destruct (Z.ltb_spec d 90); [reflexivity | lia]. }
  split. { intros H. destruct (Z.ltb_spec d 0); [lia |].
           destruct (Z.ltb_spec d 30); [lia |].
           destruct (Z.ltb_spec d 90); [lia | reflexivity]. }
  split.
  { unfold showInfoPanel. rewrite Hdata, Hexp. reflexivity. }
  rewrite <- getWarrantyStatus_tiers.
  pose proof (ringColor_matches_status (Some d)) as Hring.
  subst s'. unfold addWarrantyIndicator. simpl negb. cbv iota.
  rewrite Hd. destruct (ringColorFor (Some d)) as [c|].
  - destruct Hring as [Hcol Hst]. split; [intros; contradiction |].
    intros _. exists c. rewrite Hm. simpl daysLt.
    destruct (d <? 30)%Z; simpl.
    + rewrite list_lookup_alter_eq, Hm. auto.
    + rewrite list_lookup_alter_eq, Hm, app_nil_r. auto.
  - split; [reflexivity | intros; contradiction].
Qed.

(** A date that [new Date] rejects gives NaN days: the status falls
    through to healthy and no ring is added. *)
Lemma invalid_date_counts_as_healthy (now : Z) (o : nat) (s : state) :
  status (getWarrantyStatus (daysRemainingAt now InvalidDate)) = "healthy"
  /\ addWarrantyIndicator now o InvalidDate s = s.
Proof. split; reflexivity. Qed.

Lemma warranty_tier_and_ring_witness :
  exists c,
    cssColor c = "#f59e0b"
    /\ (children <$>
          heap (addWarrantyIndicator sampleNow 5
                  (DateAt (sampleNow + 10 * MS_PER_DAY + 5000)) twinState) !! 5%nat)
       = Some [{| ring_color := c; ring_opacity := 6 # 10 |}].
Proof.
  destruct (heap twinState !! 5%nat) as [m|] eqn:Hm;
    [| vm_compute in Hm; discriminate Hm].
  destruct (JsObject.get "db_1" (DEVICE_DB twinState)) as [data|] eqn:Hd;
    [| vm_compute in Hd; discriminate Hd].
  assert (warrantyExpiry data = DateAt (sampleNow + 10 * MS_PER_DAY + 5000)) as He.
  { vm_compute in Hd. injection Hd as <-. reflexivity. }
  destruct (warranty_tier_and_ring sampleNow _ 5 m "db_1" data twinState Hm Hd He)
    as (_ & _ & _ & _ & _ & _ & _ & Hring).
  destruct Hring as (c & Hc1 & Hc2 & _); [vm_compute; discriminate |].
  exists c. split; [rewrite Hc2; reflexivity |].
  rewrite Hc1. vm_compute in Hm. injection Hm as <-. reflexivity.
Defined.

End Warranty.

(** ** Floor / Level Filter *)
Section FloorFilter.






End FloorFilter.

(** ** Coordinate Projector *)
Section Projector.







(** The wheel handler keeps the zoom factor between the two bounds, so it
    stays away from zero. *)
Lemma nodeCanvas_wheel_bounds (up : bool) (s : state) :
  (minScale (nodeView s) <= nv_scale (nodeView s))%Q ->
  (nv_scale (nodeView s) <= maxScale (nodeView s))%Q ->
  let v := nodeView (nodeCanvas_wheel up s) in
  (minScale v <= nv_scale v)%Q /\ (nv_scale v <= maxScale v)%Q.
Proof.
  intros Hlo Hhi. unfold nodeCanvas_wheel.
  destruct (Qle_bool (minScale (nodeView s)) _) eqn:E1; simpl; [| auto].
  destruct (Qle_bool _ (maxScale (nodeView s))) eqn:E2; simpl; [| auto].
  apply Qle_bool_iff in E1, E2. auto.
Qed.


End Projector.

(** ** Selection Controller *)
Section Selection.

Lemma playingFrom_ge (i : nat) (l : list tween) (x : nat * tweenKind) :
  In x (playingFrom i l) -> i <= fst x.
Proof.
  revert i. induction l as [|tw l IH]; intros i; simpl; [tauto |].
  rewrite in_app_iff. intros [H | H].
  - destruct (playing tw); [| destruct H].
    destruct H as [<- | []]. simpl. lia.
  - apply IH in H. lia.
Qed.

Lemma playingFrom_app (i : nat) (l l' : list tween) :
  playingFrom i (l ++ l') = playingFrom i l ++ playingFrom (i + length l) l'.
Proof.
  revert i. induction l as [|tw l IH]; intros i; simpl.
  - rewrite Nat.add_0_r. reflexivity.
  - rewrite IH, <- app_assoc.
    replace (i + S (length l)) with (S i + length l) by lia. reflexivity.
Qed.

(** Stopping tween [t] removes it, and nothing else, from the running
    ones. *)
Lemma playingFrom_stop (i t : nat) (l : list tween) :
  playingFrom i (alter (fun tw => {| kind := kind tw; playing := false |}) t l)
  = List.filter (fun x => negb (Nat.eqb (fst x) (i + t))) (playingFrom i l).
Proof.
  revert i t. induction l as [|tw l IH]; intros i t; [reflexivity |].
  destruct t as [|t]; simpl.
  - rewrite List.filter_app.
    assert (List.filter (fun x => negb (Nat.eqb (fst x) (i + 0)))
                        (if playing tw then [(i, kind tw)] else []) = []) as ->.
    { destruct (playing tw); simpl; [| reflexivity].
      rewrite Nat.add_0_r, Nat.eqb_refl. reflexivity. }
    simpl. symmetry. apply forallb_filter_id, forallb_forall.
    intros x Hx. apply playingFrom_ge in Hx.
    apply negb_true_iff, Nat.eqb_neq. lia.
  - rewrite List.filter_app.
    pose proof (IH (S i) t) as IH'. unfold alter in IH'. rewrite IH'.
    replace (S i + t) with (i + S t) by lia. f_equal.
    destruct (playing tw); simpl; [| reflexivity].
    destruct (Nat.eqb_spec i (i + S t)); [lia | reflexivity].
Qed.

Lemma tweens_deselectAll3D (r : bool) (s : state) :
  tweens (deselectAll3D r s)
  = match blinkTween s with
    | Some t => alter (fun tw => {| kind := kind tw; playing := false |}) t (tweens s)
    | None => tweens s
    end.
Proof.
  unfold deselectAll3D.
  destruct (blinkTween s); simpl; destruct (selectedMesh s); destruct r; reflexivity.
Qed.

Lemma heap_deselectAll3D (r : bool) (s : state) :
  heap (deselectAll3D r s)
  = match selectedMesh s with
    | Some o => alter (fun m => match userData_originalMat m with
                                | Some om => mesh_setMat (restoredMat om) m
                                | None => m
                                end) o (heap s)
    | None => heap s
    end.
Proof.
  unfold deselectAll3D.
  destruct (blinkTween s); simpl; destruct (selectedMesh s); destruct r; reflexivity.
Qed.

Lemma fields_deselectAll3D (r : bool) (s : state) :
  selectedMesh (deselectAll3D r s) = None
  /\ blinkTween (deselectAll3D r s) = None
  /\ DEVICE_DB (deselectAll3D r s) = DEVICE_DB s
  /\ interactableMeshes (deselectAll3D r s) = interactableMeshes s
  /\ scene (deselectAll3D r s) = scene s.
Proof.
  unfold deselectAll3D.
  destruct (blinkTween s) eqn:Eb; simpl; destruct (selectedMesh s) eqn:Es; destruct r;
    simpl; rewrite ?Eb, ?Es; repeat split.
Qed.

(** After [deselectAll3D] no highlight animation is running. *)
Lemma deselectAll3D_stops_blinks (r : bool) (s : state) :
  blinkOwned s = true -> playingBlinks (deselectAll3D r s) = [].
Proof.
  unfold blinkOwned, playingBlinks. rewrite tweens_deselectAll3D. intros H.
  rewrite forallb_forall in H.
  destruct (blinkTween s) as [t|].
  - rewrite playingFrom_stop. simpl.
    induction (playingFrom 0 (tweens s)) as [|x l IH]; [reflexivity |].
    simpl. destruct (Nat.eqb_spec (fst x) t) as [E | E]; simpl.
    + apply IH. intros y Hy. apply H. simpl.
      destruct (isBlink (snd x)); [right |]; exact Hy.
    + destruct (isBlink (snd x)) eqn:Hb.
      * assert (In x (List.filter (fun it => isBlink (snd it)) (x :: l))) as Hin
          by (simpl; rewrite Hb; left; reflexivity).
        apply H in Hin. apply Nat.eqb_eq in Hin. contradiction.
      * apply IH. intros y Hy. apply H. simpl. rewrite Hb. exact Hy.
  - destruct (List.filter _ (playingFrom 0 (tweens s))) as [|x l]; [reflexivity |].
    specialize (H x (or_introl eq_refl)). discriminate.
Qed.

(** What a successful [select3DMesh] leaves behind. *)
Lemma select3DMesh_returns (now : Z) (o : nat) (m : mesh) (data : device) (s : state) :
  heap s !! o = Some m ->
  JsObject.get (dbKeyOf m) (DEVICE_DB s) = Some data ->
  let s0 := deselectAll3D false s in
  let s' := fst (select3DMesh now o s) in
  snd (select3DMesh now o s) = Returned
  /\ selectedMesh s' = Some o
  /\ blinkTween s' = Some (length (tweens s))
  /\ tweens s' = tweens s0 ++ [{| kind := Blink o; playing := true |}]
  /\ heap s' = alter (fun x => mesh_setMat
                                 (mat_setEmissive (three (getHealthInfo (health data)))
                                                  (8 # 10) (mat x)) x) o (heap s0)
  /\ DEVICE_DB s' = DEVICE_DB s
  /\ interactableMeshes s' = interactableMeshes s.
Proof.
  intros Hm Hd s0 s'. subst s'. unfold select3DMesh. fold s0.
  destruct (fields_deselectAll3D false s) as (_ & _ & Hdb & Hint & _). fold s0 in Hdb, Hint.
  assert (exists m0, heap s0 !! o = Some m0 /\ dbKeyOf m0 = dbKeyOf m) as (m0 & Hm0 & Hk).
  { subst s0. rewrite heap_deselectAll3D. destruct (selectedMesh s) as [sel|]; [| eauto].
    rewrite list_lookup_alter. destruct (decide (sel = o)) as [-> | _]; [| eauto].
    rewrite Hm. simpl. destruct (userData_originalMat m); eauto. }
  simpl. rewrite Hm0, Hk, Hdb, Hd.
  unfold showInfoPanel. simpl. rewrite Hdb, Hd. simpl.
  assert (length (tweens s0) = length (tweens s)) as Hlen.
  { subst s0. rewrite tweens_deselectAll3D. destruct (blinkTween s); [apply length_alter | reflexivity]. }
  rewrite Hlen. repeat split; assumption.
Qed.

Lemma playingBlinks_select3DMesh (now : Z) (o : nat) (m : mesh) (data : device)
    (s : state) :
  blinkOwned s = true ->
  heap s !! o = Some m ->
  JsObject.get (dbKeyOf m) (DEVICE_DB s) = Some data ->
  playingBlinks (fst (select3DMesh now o s)) = [(length (tweens s), Blink o)]
  /\ blinkOwned (fst (select3DMesh now o s)) = true.
Proof.
  intros Hown Hm Hd.
  destruct (select3DMesh_returns now o m data s Hm Hd) as (_ & _ & Hb & Ht & _).
  pose proof (deselectAll3D_stops_blinks false s Hown) as Hnone.
  assert (length (tweens (deselectAll3D false s)) = length (tweens s)) as Hlen.
  { rewrite tweens_deselectAll3D. destruct (blinkTween s); [apply length_alter | reflexivity]. }
  assert (playingBlinks (fst (select3DMesh now o s)) = [(length (tweens s), Blink o)]) as E.
  { unfold playingBlinks in *. rewrite Ht, playingFrom_app, Hlen, List.filter_app, Hnone.
    reflexivity. }
  split; [exact E |].
  unfold blinkOwned. rewrite E, Hb. simpl. rewrite Nat.eqb_refl. reflexivity.
Qed.

(** [deselectAll3D] and [select3DMesh] change nothing of a mesh but its
    material. *)
Lemma mesh_setMat_same (m : mesh) : mesh_setMat (mat m) m = m.
Proof. destruct m; reflexivity. Qed.

Lemma lookup_deselectAll3D (r : bool) (s : state) (i : nat) (m : mesh) :
  heap s !! i = Some m ->
  exists x, heap (deselectAll3D r s) !! i = Some (mesh_setMat x m)
            /\ (selectedMesh s <> Some i -> x = mat m)
            /\ (selectedMesh s = Some i ->
                forall om, userData_originalMat m = Some om -> x = restoredMat om).
Proof.
  intros Hm. rewrite heap_deselectAll3D.
  destruct (selectedMesh s) as [sel|].
  - rewrite list_lookup_alter. destruct (decide (sel = i)) as [-> | Hne].
    + rewrite Hm. simpl. destruct (userData_originalMat m) as [om|].
      * exists (restoredMat om). split; [reflexivity |].
        split; [congruence |]. intros _ om' E. congruence.
      * exists (mat m). rewrite mesh_setMat_same. split; [reflexivity |].
        split; [reflexivity |]. intros _ om' E. discriminate.
    + exists (mat m). rewrite mesh_setMat_same, Hm. split; [reflexivity |].
      split; [reflexivity |]. intros E. congruence.
  - exists (mat m). rewrite mesh_setMat_same, Hm. split; [reflexivity |].
    split; [reflexivity |]. intros E. discriminate.
Qed.

(** The material put back is the snapshot itself, clipped at the floor
    plane again. *)
Lemma restoredMat_is_snapshot (om : material) :
  restoredMat om = mat_clipToFloor om.
Proof. reflexivity. Qed.

(** C5.  From a state whose only possibly running highlight animation is
    the one [state3D.blinkTween] holds: selecting mesh [a] and then mesh
    [b], two different registered meshes, first leaves [a] as the one
    highlighted mesh; inside the second call [deselectAll3D] has stopped
    that animation and put the clone of [a]'s material snapshot back before
    anything is done to [b]; at the end [b] is selected, the highlight
    animation of [b] is the only one running, and [a] still carries the
    restored material. *)
Theorem select_a_then_b (now1 now2 : Z) (a b : nat) (ma mb : mesh)
    (oma : material) (da db : device) (s : state) :
  blinkOwned s = true ->
  a <> b ->
  heap s !! a = Some ma ->
  heap s !! b = Some mb ->
  userData_originalMat ma = Some oma ->
  JsObject.get (dbKeyOf ma) (DEVICE_DB s) = Some da ->
  JsObject.get (dbKeyOf mb) (DEVICE_DB s) = Some db ->
  let sa := fst (select3DMesh now1 a s) in
  let mid := deselectAll3D false sa in
  let sb := fst (select3DMesh now2 b sa) in
  snd (select3DMesh now1 a s) = Returned
  /\ playingBlinks sa = [(length (tweens s), Blink a)]
  /\ snd (select3DMesh now2 b sa) = Returned
  /\ playingBlinks mid = []
  /\ (mat <$> heap mid !! a) = Some (restoredMat oma)
  /\ playingBlinks sb = [(S (length (tweens s)), Blink b)]
  /\ selectedMesh sb = Some b
  /\ (forall o, highlighted sb o = true <-> o = b)
  /\ (mat <$> heap sb !! a) = Some (restoredMat oma)
  /\ (exists mb', heap sb !! b = Some mb'
                  /\ emissive (mat mb') = three (getHealthInfo (health db))
                  /\ emissiveIntensity (mat mb') = (8 # 10)%Q).
Proof.
  intros Hown Hab Ha Hb Hom Hda Hdb sa mid sb.
  (* the first selection *)
  destruct (select3DMesh_returns now1 a ma da s Ha Hda)
    as (Hret1 & Hsel1 & Hbt1 & Htw1 & Hheap1 & Hdb1 & _).
  destruct (playingBlinks_select3DMesh now1 a ma da s Hown Ha Hda) as (Hpl1 & Hown1).
  fold sa in Hsel1, Hbt1, Htw1, Hheap1, Hdb1, Hpl1, Hown1.
  destruct (lookup_deselectAll3D false s a ma Ha) as (xa & Ha0 & _ & _).
  destruct (lookup_deselectAll3D false s b mb Hb) as (xb & Hb0 & _ & _).
  assert (exists x, heap sa !! a = Some (mesh_setMat x ma)) as (xa1 & Ha1).
  { rewrite Hheap1, list_lookup_alter_eq, Ha0. simpl. eauto. }
  assert (heap sa !! b = Some (mesh_setMat xb mb)) as Hb1.
  { rewrite Hheap1, list_lookup_alter_ne by exact Hab. exact Hb0. }
  (* the second selection *)
  assert (JsObject.get (dbKeyOf (mesh_setMat xb mb)) (DEVICE_DB sa) = Some db) as Hdb'
    by (rewrite Hdb1; exact Hdb).
  destruct (select3DMesh_returns now2 b _ db sa Hb1 Hdb')
    as (Hret2 & Hsel2 & _ & Htw2 & Hheap2 & _ & _).
  destruct (playingBlinks_select3DMesh now2 b _ db sa Hown1 Hb1 Hdb') as (Hpl2 & _).
  fold mid in Htw2, Hheap2. fold sb in Hsel2, Htw2, Hheap2, Hpl2.
  assert (length (tweens sa) = S (length (tweens s))) as Hlen.
  { rewrite Htw1, length_app, tweens_deselectAll3D. simpl.
    destruct (blinkTween s); rewrite ?length_alter; lia. }
  rewrite Hlen in Hpl2.
  destruct (lookup_deselectAll3D false sa a _ Ha1) as (ya & Hamid & _ & Hrest).
  fold mid in Hamid.
  specialize (Hrest Hsel1 oma Hom). subst ya.
  destruct (lookup_deselectAll3D false sa b _ Hb1) as (yb & Hbmid & _ & _).
  fold mid in Hbmid.
  split; [exact Hret1 |]. split; [exact Hpl1 |]. split; [exact Hret2 |].
  split; [apply deselectAll3D_stops_blinks, Hown1 |].
  split; [rewrite Hamid; reflexivity |].
  split; [exact Hpl2 |]. split; [exact Hsel2 |].
  split.
  { intros o. unfold highlighted. rewrite Hpl2. simpl. rewrite orb_false_r.
    apply Nat.eqb_eq. }
  split.
  { rewrite Hheap2, list_lookup_alter_ne by congruence. rewrite Hamid. reflexivity. }
  rewrite Hheap2, list_lookup_alter_eq, Hbmid. simpl. eauto.
Qed.

(** Selecting [db_1] and then [db_3] in the sample facility. *)
Lemma select_a_then_b_witness :
  let sa := fst (select3DMesh sampleNow 3 twinState) in
  let sb := fst (select3DMesh sampleNow 5 sa) in
  playingBlinks sb = [(2%nat, Blink 5)]
  /\ forall o, highlighted sb o = true <-> o = 5%nat.
Proof.
  destruct (heap twinState !! 3%nat) as [ma|] eqn:Ha; [| vm_compute in Ha; discriminate Ha].
  destruct (heap twinState !! 5%nat) as [mb|] eqn:Hb; [| vm_compute in Hb; discriminate Hb].
  destruct (userData_originalMat ma) as [oma|] eqn:Hom;
    [| vm_compute in Ha; injection Ha as <-; discriminate Hom].
  destruct (JsObject.get (dbKeyOf ma) (DEVICE_DB twinState)) as [da|] eqn:Hda;
    [| vm_compute in Ha; injection Ha as <-; vm_compute in Hda; discriminate Hda].
  destruct (JsObject.get (dbKeyOf mb) (DEVICE_DB twinState)) as [db|] eqn:Hdb;
    [| vm_compute in Hb; injection Hb as <-; vm_compute in Hdb; discriminate Hdb].
  assert (blinkOwned twinState = true) as Hown by (vm_compute; reflexivity).
  assert (3%nat <> 5%nat) as Hne by lia.
  destruct (select_a_then_b sampleNow sampleNow 3 5 ma mb oma da db twinState
              Hown Hne Ha Hb Hom Hda Hdb)
    as (_ & _ & _ & _ & _ & Hpl & _ & Hhl & _).
  split; [exact Hpl | exact Hhl].
Defined.



(** A mesh without registry entry, in contrast, makes [select3DMesh] throw
    after the previous selection is already undone. *)
Lemma select3DMesh_unregistered_throws (now : Z) (o : nat) (m : mesh) (s : state) :
  heap (deselectAll3D false s) !! o = Some m ->
  JsObject.get (dbKeyOf m) (DEVICE_DB s) = None ->
  select3DMesh now o s = (set_selectedMesh (Some o) (deselectAll3D false s), Threw).
Proof.
  intros Hm Hd. unfold select3DMesh.
  change (heap (set_selectedMesh (Some o) (deselectAll3D false s)))
    with (heap (deselectAll3D false s)).
  rewrite Hm.
  change (DEVICE_DB (set_selectedMesh (Some o) (deselectAll3D false s)))
    with (DEVICE_DB (deselectAll3D false s)).
  destruct (fields_deselectAll3D false s) as (_ & _ & Hdb & _). rewrite Hdb, Hd.
  reflexivity.
Qed.

End Selection.

(** ** Facts about the object store and the registry *)
Section Store.

Lemma JsObject_get_delete {V} (k : string) (o : JsObject.t V) :
  JsObject.get k (JsObject.delete k o) = None.
Proof.
  induction o as [|[k' v] o IH]; [reflexivity |].
  simpl. destruct (String.eqb k k') eqn:E; [exact IH |].
  simpl. rewrite E. exact IH.
Qed.

Lemma JsObject_get_delete_ne {V} (k k' : string) (o : JsObject.t V) :
  k <> k' -> JsObject.get k' (JsObject.delete k o) = JsObject.get k' o.
Proof.
  intros Hne. induction o as [|[k0 v] o IH]; [reflexivity |].
  simpl. destruct (String.eqb_spec k k0) as [<- | H0].
  - destruct (String.eqb_spec k' k); [congruence | exact IH].
  - simpl. destruct (String.eqb k' k0); [reflexivity | exact IH].
Qed.

Lemma JsObject_get_set {V} (k : string) (v : V) (o : JsObject.t V) :
  JsObject.get k (JsObject.set k v o) = Some v.
Proof.
  induction o as [|[k' v'] o IH]; simpl.
  - rewrite String.eqb_refl. reflexivity.
  - destruct (String.eqb k k') eqn:E; simpl; rewrite E; [reflexivity | exact IH].
Qed.

Lemma JsObject_get_set_ne {V} (k k' : string) (v : V) (o : JsObject.t V) :
  k <> k' -> JsObject.get k' (JsObject.set k v o) = JsObject.get k' o.
Proof.
  intros Hne. induction o as [|[k0 v0] o IH]; simpl.
  - destruct (String.eqb_spec k' k); [congruence | reflexivity].
  - destruct (String.eqb_spec k k0) as [<- | H0]; simpl.
    + destruct (String.eqb_spec k' k); [congruence | reflexivity].
    + destruct (String.eqb k' k0); [reflexivity | exact IH].
Qed.

Lemma In_removeFirst (x y : nat) (l : list nat) :
  In y (removeFirst x l) -> In y l.
Proof.
  induction l as [|z l IH]; simpl; [tauto |].
  destruct (Nat.eqb x z); simpl; tauto.
Qed.

Lemma removeFirst_NoDup (x : nat) (l : list nat) :
  List.NoDup l -> ~ In x (removeFirst x l).
Proof.
  induction 1 as [|z l Hz Hnd IH]; simpl; [tauto |].
  destruct (Nat.eqb_spec x z) as [-> | Hne]; [exact Hz |].
  simpl. intros [E | H]; [congruence | tauto].
Qed.

Lemma In_meshesOf (s : state) (l : list nat) (o : nat) (m : mesh) :
  In (o, m) (meshesOf s l) <-> In o l /\ heap s !! o = Some m.
Proof.
  unfold meshesOf. rewrite <- list_elem_of_In, list_elem_of_omap. split.
  - intros (x & Hx & H). destruct (heap s !! x) as [mx|] eqn:E; [| discriminate].
    injection H as -> ->. split; [apply list_elem_of_In, Hx | exact E].
  - intros [Hin Hm]. exists o. rewrite Hm. split; [apply list_elem_of_In, Hin | reflexivity].
Qed.

Lemma meshesOf_cons (s : state) (x : nat) (l : list nat) :
  meshesOf s (x :: l)
  = match heap s !! x with
    | Some m => (x, m) :: meshesOf s l
    | None => meshesOf s l
    end.
Proof. unfold meshesOf. simpl. destruct (heap s !! x); reflexivity. Qed.

Lemma meshesOf_app (s : state) (l l' : list nat) :
  meshesOf s (l ++ l') = meshesOf s l ++ meshesOf s l'.
Proof. apply omap_app. Qed.

(** Changing an object that a list does not refer to leaves the meshes of
    the list as they are. *)
Lemma meshesOf_alter (s s' : state) (f : mesh -> mesh) (o : nat) (l : list nat) :
  heap s' = alter f o (heap s) -> ~ In o l -> meshesOf s' l = meshesOf s l.
Proof.
  intros Hh. induction l as [|x l IH]; intros Hnot; [reflexivity |].
  assert (o <> x) as Hne by (intros ->; apply Hnot; left; reflexivity).
  rewrite !meshesOf_cons, IH by (intros H; apply Hnot; right; exact H).
  assert (heap s' !! x = heap s !! x) as ->
    by (rewrite Hh; apply list_lookup_alter_ne; exact Hne).
  reflexivity.
Qed.

Lemma filter_nil {A} (f : A -> bool) (l : list A) :
  (forall x, In x l -> f x = false) -> List.filter f l = [].
Proof.
  induction l as [|x l IH]; intros H; [reflexivity |].
  simpl. rewrite (H x (or_introl eq_refl)). apply IH. intros y Hy. apply H. right. exact Hy.
Qed.

Lemma NoDup_map_eq {A B} (f : A -> B) (l : list A) (x y : A) :
  List.NoDup (map f l) -> In x l -> In y l -> f x = f y -> x = y.
Proof.
  induction l as [|z l IH]; simpl; [tauto |].
  intros Hnd Hx Hy E. apply List.NoDup_cons_iff in Hnd. destruct Hnd as [Hz Hnd].
  destruct Hx as [-> | Hx], Hy as [-> | Hy]; auto.
  - exfalso. apply Hz. rewrite E. apply in_map, Hy.
  - exfalso. apply Hz. rewrite <- E. apply in_map, Hx.
Qed.

End Store.

(** ** Deleting a device *)
Section Deletion.

Lemma fields_deleteDeviceBtn_finish (o : nat) (m : mesh) (data : device) (s : state) :
  heap s !! o = Some m ->
  let s' := fst (deleteDeviceBtn_finish o data s) in
  interactableMeshes s' = removeFirst o (interactableMeshes s)
  /\ DEVICE_DB s' = JsObject.delete (dbKeyOf m) (DEVICE_DB s)
  /\ heap s' = alter (fun x => mesh_setMat (mat_setOpacity true (opacity (mat x)) (mat x)) x)
                     o (heap s)
  /\ tweens s' = tweens s ++ [{| kind := FadeOut o; playing := true |}]
  /\ scene s' = scene s
  /\ disposed s' = disposed s
  /\ selectedMesh s' = None
  /\ blinkTween s' = blinkTween s
  /\ infoPanelActive s' = false.
Proof.
  intros Hm. unfold deleteDeviceBtn_finish. simpl. rewrite Hm. simpl.
  repeat split.
Qed.

Lemma deleteDeviceBtn_click_confirmed (remote : fetchResult) (o : nat) (m : mesh)
    (data : device) (s : state) :
  selectedMesh s = Some o ->
  heap s !! o = Some m ->
  JsObject.get (dbKeyOf m) (DEVICE_DB s) = Some data ->
  (hasDbId data = true -> remote = HttpResponse true) ->
  deleteDeviceBtn_click true remote s = deleteDeviceBtn_finish o data s.
Proof.
  intros Hsel Hm Hd Hr. unfold deleteDeviceBtn_click. rewrite Hsel, Hm, Hd.
  cbn [negb]. destruct (hasDbId data); [| reflexivity].
  rewrite (Hr eq_refl). cbn [deleteDevice].
  destruct (deleteDeviceBtn_finish o data s) as [s0 ev]. reflexivity.
Qed.

(** A delete that the Persistence Service does not confirm leaves the
    state as it was and reports the failure. *)
Lemma deleteDeviceBtn_click_failed (remote : fetchResult) (o : nat) (m : mesh)
    (data : device) (s : state) :
  selectedMesh s = Some o ->
  heap s !! o = Some m ->
  JsObject.get (dbKeyOf m) (DEVICE_DB s) = Some data ->
  hasDbId data = true ->
  remote <> HttpResponse true ->
  deleteDeviceBtn_click true remote s
  = (s, [ConsoleError "Failed to delete device:"; Alert MsgDeleteFailed]).
Proof.
  intros Hsel Hm Hd Hid Hr. unfold deleteDeviceBtn_click. rewrite Hsel, Hm, Hd, Hid. simpl.
  destruct remote as [|[]]; [reflexivity | congruence | reflexivity].
Qed.

Lemma fields_completeMeshDeletion (o : nat) (m : mesh) (s : state) :
  heap s !! o = Some m ->
  let s' := completeMeshDeletion o s in
  ~ In o (scene s')
  /\ disposed s' = disposed s ++ DisposeGeometry (geometry m)
                     :: map DisposeTexture (textures (mat m))
                     ++ DisposeMaterial o :: map (DisposeRing o) (children m)
  /\ (children <$> heap s' !! o) = Some []
  /\ DEVICE_DB s' = DEVICE_DB s
  /\ interactableMeshes s' = interactableMeshes s.
Proof.
  intros Hm. unfold completeMeshDeletion. rewrite Hm. simpl.
  split.
  { rewrite filter_In. intros [_ H]. rewrite Nat.eqb_refl in H. discriminate. }
  split; [reflexivity |].
  split; [| split; reflexivity].
  rewrite list_lookup_alter_eq, Hm. reflexivity.
Qed.

(** C2 as the program has it.  Deleting the selected, registered device
    (confirmed by the Persistence Service when it is a database device)
    removes its registry entry and takes its mesh off the interactable list
    at once, so that selecting its key afterwards does nothing; the mesh
    stays in the scene, undisposed, while the fade-out tween started by the
    handler runs, and the completion of that tween disposes geometry,
    textures, material and rings and detaches the mesh. *)
Theorem delete_then_fade_disposes (now : Z) (remote : fetchResult) (o : nat)
    (m : mesh) (key : string) (data : device) (s : state) :
  poolValid s = true ->
  keysUnique s = true ->
  selectedMesh s = Some o ->
  In o (interactableMeshes s) ->
  heap s !! o = Some m ->
  userData_dbKey m = Some key ->
  JsObject.get key (DEVICE_DB s) = Some data ->
  (hasDbId data = true -> remote = HttpResponse true) ->
  let s' := fst (deleteDeviceBtn_click true remote s) in
  let t := length (tweens s) in
  let s'' := tweenComplete t s' in
  JsObject.get key (DEVICE_DB s') = None
  /\ ~ In o (interactableMeshes s')
  /\ instancesOf key s' = []
  /\ select3DByKey now key s' = (s', Returned)
  /\ selectedMesh s' = None
  /\ tweens s' !! t = Some {| kind := FadeOut o; playing := true |}
  /\ scene s' = scene s
  /\ disposed s' = disposed s
  /\ ~ In o (scene s'')
  /\ disposed s'' = disposed s ++ DisposeGeometry (geometry m)
                      :: map DisposeTexture (textures (mat m))
                      ++ DisposeMaterial o :: map (DisposeRing o) (children m)
  /\ (children <$> heap s'' !! o) = Some []
  /\ DEVICE_DB s'' = DEVICE_DB s'
  /\ interactableMeshes s'' = interactableMeshes s'.
Proof.
  intros Hpool Huniq Hsel Hin Hm Hkey Hd Hr s' t s''.
  assert (dbKeyOf m = key) as Hk by (unfold dbKeyOf; rewrite Hkey; reflexivity).
  rewrite <- Hk in Hd.
  assert (s' = fst (deleteDeviceBtn_finish o data s)) as Es'
    by (subst s'; rewrite (deleteDeviceBtn_click_confirmed remote o m data s); auto).
  destruct (fields_deleteDeviceBtn_finish o m data s Hm)
    as (Hint & Hdb & Hheap & Htw & Hsc & Hdis & Hnosel & _ & _).
  rewrite <- Es' in Hint, Hdb, Hheap, Htw, Hsc, Hdis, Hnosel.
  apply andb_true_iff in Hpool. destruct Hpool as [_ Hnd].
  apply bool_decide_eq_true, NoDup_ListNoDup in Hnd.
  apply bool_decide_eq_true, NoDup_ListNoDup in Huniq.
  assert (~ In o (interactableMeshes s')) as Hgone
    by (rewrite Hint; apply removeFirst_NoDup, Hnd).
  assert (instancesOf key s' = []) as Hnone.
  { unfold instancesOf. apply filter_nil. intros [o' m'] Hin'. simpl.
    rewrite (meshesOf_alter s s' _ o _ Hheap Hgone) in Hin'.
    apply In_meshesOf in Hin'. destruct Hin' as [Ho' Hm'].
    rewrite Hint in Ho'. 
    assert (o' <> o) as Hne
      by (intros ->; apply (removeFirst_NoDup o _ Hnd); exact Ho').
    apply In_removeFirst in Ho'.
    destruct (hasDbKey key m') eqn:E; [exfalso | reflexivity].
    apply Hne.
    assert ((o', m') = (o, m)) as Epair; [| congruence].
    apply (NoDup_map_eq (fun om => userData_dbKey (snd om))
             (meshesOf s (interactableMeshes s))); [exact Huniq | | |].
    - apply In_meshesOf. auto.
    - apply In_meshesOf. auto.
    - simpl. rewrite Hkey. unfold hasDbKey in E.
      destruct (userData_dbKey m') as [k|]; [| discriminate].
      apply String.eqb_eq in E. congruence. }
  assert (tweens s' !! t = Some {| kind := FadeOut o; playing := true |}) as Ht.
  { rewrite Htw. subst t. rewrite lookup_app_r by lia.
    rewrite Nat.sub_diag. reflexivity. }
  split; [rewrite Hdb, Hk; apply JsObject_get_delete |].
  split; [exact Hgone |]. split; [exact Hnone |].
  split.
  { unfold select3DByKey, findMesh.
    destruct (List.find _ _) as [[o' m']|] eqn:E; [| reflexivity].
    apply find_some in E. destruct E as [Hin' Hk']. simpl in Hk'.
    assert (In (o', m') (instancesOf key s')) as Hc
      by (unfold instancesOf; apply filter_In; auto).
    rewrite Hnone in Hc. destruct Hc. }
  split; [exact Hnosel |]. split; [exact Ht |].
  split; [exact Hsc |]. split; [exact Hdis |].
  (* the end of the fade-out *)
  subst s''. unfold tweenComplete. rewrite Ht. simpl kind. simpl playing. cbv iota.
  set (s1 := tweenStop t (updateMesh o _ s')).
  assert (exists m1, heap s1 !! o = Some m1
                     /\ geometry m1 = geometry m
                     /\ textures (mat m1) = textures (mat m)
                     /\ children m1 = children m) as (m1 & Hm1 & Eg & Et & Ec).
  { subst s1. simpl. rewrite list_lookup_alter_eq, Hheap, list_lookup_alter_eq, Hm.
    simpl. eexists. split; [reflexivity |]. repeat split. }
  destruct (fields_completeMeshDeletion o m1 s1 Hm1) as (H1 & H2 & H3 & H4 & H5).
  rewrite Eg, Et, Ec in H2.
  split; [exact H1 |].
  split; [rewrite H2; subst s1; simpl; rewrite Hdis; reflexivity |].
  split; [exact H3 |].
  split; [rewrite H4; reflexivity | rewrite H5; reflexivity].
Qed.

(** Deleting [db_1] (mesh 3, with a warranty ring) in the sample
    facility. *)
Lemma delete_then_fade_disposes_witness :
  let s := fst (select3DByKey sampleNow "db_1" twinState) in
  let s' := fst (deleteDeviceBtn_click true (HttpResponse true) s) in
  select3DByKey sampleNow "db_1" s' = (s', Returned)
  /\ ~ In 3%nat (scene (tweenComplete (length (tweens s)) s')).
Proof.
  intros s s'.
  destruct (heap s !! 3%nat) as [m|] eqn:Hm; [| vm_compute in Hm; discriminate Hm].
  destruct (JsObject.get "db_1" (DEVICE_DB s)) as [data|] eqn:Hd;
    [| vm_compute in Hd; discriminate Hd].
  assert (poolValid s = true) as H1 by (vm_compute; reflexivity).
  assert (keysUnique s = true) as H2 by (vm_compute; reflexivity).
  assert (selectedMesh s = Some 3%nat) as H3 by (vm_compute; reflexivity).
  assert (In 3%nat (interactableMeshes s)) as H4 by (vm_compute; tauto).
  assert (userData_dbKey m = Some "db_1") as H5
    by (vm_compute in Hm; injection Hm as <-; reflexivity).
  destruct (delete_then_fade_disposes sampleNow (HttpResponse true) 3 m "db_1" data s
              H1 H2 H3 H4 Hm H5 Hd (fun _ => eq_refl))
    as (_ & _ & _ & Hnoop & _ & _ & _ & _ & Hscene & _).
  split; [exact Hnoop | exact Hscene].
Defined.

(** When the delete handler has returned, the registry entry of the deleted
    device is gone while its mesh is still part of the scene and nothing of
    it has been disposed. *)
Lemma delete_leaves_mesh_in_scene :
  let s := fst (select3DByKey sampleNow "db_1" twinState) in
  let s' := fst (deleteDeviceBtn_click true (HttpResponse true) s) in
  JsObject.get "db_1" (DEVICE_DB s') = None
  /\ In 3%nat (scene s')
  /\ disposed s' = []
  /\ (length <$> (children <$> heap s' !! 3%nat)) = Some 1%nat.
Proof. vm_compute. tauto. Qed.

End Deletion.

(** ** Spawning and the pending queue *)
Section Spawning.


Lemma find_app_Some {A} (p : A -> bool) (l l' : list A) (x : A) :
  List.find p l = Some x -> List.find p (l ++ l') = Some x.
Proof.
  induction l as [|y l IH]; simpl; [discriminate |].
  destruct (p y); [tauto | exact IH].
Qed.

Lemma meshesOf_ext (s s' : state) (l : list nat) :
  (forall x, In x l -> heap s' !! x = heap s !! x) -> meshesOf s' l = meshesOf s l.
Proof.
  induction l as [|x l IH]; intros H; [reflexivity |].
  rewrite !meshesOf_cons, (H x (or_introl eq_refl)), IH; [reflexivity |].
  intros y Hy. apply H. right. exact Hy.
Qed.

(** [addWarrantyIndicator] touches the children of mesh [o] and the
    tweens, nothing else. *)
Lemma fields_addWarrantyIndicator (now : Z) (o : nat) (e : dateField) (s : state) :
  let s' := addWarrantyIndicator now o e s in
  interactableMeshes s' = interactableMeshes s
  /\ scene s' = scene s
  /\ DEVICE_DB s' = DEVICE_DB s
  /\ pendingDatabaseDevices s' = pendingDatabaseDevices s
  /\ exists c, heap s' = alter (fun m => mesh_setChildren (children m ++ c) m) o (heap s).
Proof.
  assert (heap s = alter (fun m => mesh_setChildren (children m ++ []) m) o (heap s)) as Hid.
  { symmetry. apply list_alter_id. intros m. rewrite app_nil_r. destruct m; reflexivity. }
  unfold addWarrantyIndicator.
  destruct (negb (dateTruthy e)); [repeat split; eauto |].
  destruct (ringColorFor _) as [c|]; [| repeat split; eauto].
  destruct (heap s !! o) as [m|] eqn:Hm; [| repeat split; eauto].
  assert (heap (updateMesh o (mesh_setChildren
                                (children m ++ [{| ring_color := c; ring_opacity := 6 # 10 |}])) s)
          = alter (fun x => mesh_setChildren
                              (children x ++ [{| ring_color := c; ring_opacity := 6 # 10 |}]) x)
                  o (heap s)) as Hh.
  { simpl. apply list_eq. intros i. rewrite !list_lookup_alter.
    destruct (decide (o = i)) as [<- | _]; [| reflexivity]. rewrite Hm. reflexivity. }
  destruct (daysLt _ 30); simpl; repeat split; eauto.
Qed.

(** A spawn that finds no template only appends to the pending queue. *)
Lemma spawn_without_template (now : Z) (d : deviceData) (s : state) :
  templateLoaded (mesh_identifier (product d)) s = false ->
  spawnDeviceFromDatabase now d s = (enqueuePending d s, None).
Proof.
  unfold templateLoaded, spawnDeviceFromDatabase.
  destruct (findMesh _ s) as [[t tm]|]; [discriminate | reflexivity].
Qed.

(** A spawn that finds a template creates one new mesh, registered under
    the key of the device. *)
Lemma spawn_with_template (now : Z) (d : deviceData) (s : state) :
  templateLoaded (mesh_identifier (product d)) s = true ->
  let o := length (heap s) in
  let s' := fst (spawnDeviceFromDatabase now d s) in
  snd (spawnDeviceFromDatabase now d s) = Some o
  /\ interactableMeshes s' = interactableMeshes s ++ [o]
  /\ scene s' = scene s ++ [o]
  /\ DEVICE_DB s' = JsObject.set (dbKeyOfId (id d)) (deviceOfData d) (DEVICE_DB s)
  /\ pendingDatabaseDevices s' = pendingDatabaseDevices s
  /\ length (heap s') = S (length (heap s))
  /\ (forall i, i < o -> heap s' !! i = heap s !! i)
  /\ exists c, heap s' !! o = Some c
               /\ name c = dbKeyOfId (id d)
               /\ userData_dbKey c = Some (dbKeyOfId (id d)).
Proof.
  unfold templateLoaded, spawnDeviceFromDatabase.
  destruct (findMesh _ s) as [[t tm]|]; [intros _ | discriminate].
  cbv zeta. unfold allocMesh. cbv beta iota.
  match goal with
  | |- context [addWarrantyIndicator now ?o ?e ?s0] =>
      set (s4 := s0);
      destruct (fields_addWarrantyIndicator now o e s4) as (Hi & Hsc & Hdb & Hp & c & Hh)
  end.
  cbn [fst snd].
  rewrite Hi, Hsc, Hdb, Hp, Hh. subst s4. simpl.
  split; [reflexivity |]. split; [reflexivity |]. split; [reflexivity |].
  split; [reflexivity |]. split; [reflexivity |].
  split; [rewrite length_alter, length_app; simpl; lia |].
  split.
  { intros i Hi'. rewrite list_lookup_alter_ne by lia. apply lookup_app_l. exact Hi'. }
  rewrite list_lookup_alter_eq, lookup_app_r, Nat.sub_diag by lia. simpl.
  eexists. split; [reflexivity |]. split; reflexivity.
Qed.

Lemma poolValid_iff (s : state) :
  poolValid s = true <->
  (forall o, In o (interactableMeshes s) -> o < length (heap s))
  /\ List.NoDup (interactableMeshes s).
Proof.
  unfold poolValid. rewrite andb_true_iff, forallb_forall, bool_decide_eq_true, NoDup_ListNoDup.
  split; intros [H1 H2]; (split; [| exact H2]); intros o Ho; specialize (H1 o Ho).
  - apply Nat.ltb_lt, H1.
  - apply Nat.ltb_lt, H1.
Qed.

(** One spawn: the pool stays well-formed, loaded templates stay loaded,
    other keys are not touched, and a device whose template is loaded gets
    one more instance. *)
Lemma spawn_step (now : Z) (d : deviceData) (s : state) :
  poolValid s = true ->
  let s' := fst (spawnDeviceFromDatabase now d s) in
  let key := dbKeyOfId (id d) in
  poolValid s' = true
  /\ (forall i, templateLoaded i s = true -> templateLoaded i s' = true)
  /\ (forall k, k <> key ->
        instancesOf k s' = instancesOf k s
        /\ JsObject.get k (DEVICE_DB s') = JsObject.get k (DEVICE_DB s))
  /\ (templateLoaded (mesh_identifier (product d)) s = true ->
      JsObject.get key (DEVICE_DB s') = Some (deviceOfData d)
      /\ exists c, instancesOf key s' = instancesOf key s ++ [(length (heap s), c)]).
Proof.
  intros Hpool s' key.
  destruct (templateLoaded (mesh_identifier (product d)) s) eqn:Ht.
  - destruct (spawn_with_template now d s Ht)
      as (_ & Hi & _ & Hdb & _ & Hlen & Hold & c & Hc & Hname & Hkey).
    fold s' in Hi, Hdb, Hlen, Hold, Hc.
    apply poolValid_iff in Hpool. destruct Hpool as [Hlt Hnd].
    assert (meshesOf s' (interactableMeshes s')
            = meshesOf s (interactableMeshes s) ++ [(length (heap s), c)]) as Hms.
    { rewrite Hi, meshesOf_app, meshesOf_cons, Hc. simpl. f_equal.
      apply meshesOf_ext. intros x Hx. apply Hold, Hlt, Hx. }
    split.
    { apply poolValid_iff. rewrite Hi, Hlen. split.
      - intros o Ho. apply in_app_iff in Ho. destruct Ho as [Ho | [<- | []]]; [| lia].
        specialize (Hlt o Ho). lia.
      - apply List.NoDup_app;
          [exact Hnd | apply List.NoDup_cons; [intros [] | constructor] |].
        intros x Hx [<- | []]. specialize (Hlt _ Hx). lia. }
    split.
    { intros i. unfold templateLoaded, findMesh. rewrite Hms.
      destruct (List.find _ (meshesOf s _)) as [x|] eqn:E; [| discriminate].
      rewrite (find_app_Some _ _ _ _ E). reflexivity. }
    split.
    { intros k Hk. unfold key in Hk. split.
      - unfold instancesOf. rewrite Hms, List.filter_app. simpl.
        unfold hasDbKey. rewrite Hkey.
        destruct (String.eqb_spec (dbKeyOfId (id d)) k); [congruence |].
        apply app_nil_r.
      - rewrite Hdb. apply JsObject_get_set_ne. congruence. }
    intros _. split; [rewrite Hdb; apply JsObject_get_set |].
    exists c. unfold instancesOf. rewrite Hms, List.filter_app. simpl.
    unfold hasDbKey. rewrite Hkey. fold key. rewrite String.eqb_refl. reflexivity.
  - assert (s' = enqueuePending d s) as ->
      by (subst s'; rewrite (spawn_without_template now d s Ht); reflexivity).
    split; [exact Hpool |]. split; [tauto |].
    split; [intros k _; split; reflexivity | discriminate].
Qed.



(** The traversal of the model adds meshes and registry entries; the
    pending queue and the well-formedness of the pool are not affected. *)
Lemma loadChild_step (child : mesh) (rolled : float) (s : state) :
  poolValid s = true ->
  poolValid (loadChild child rolled s) = true
  /\ pendingDatabaseDevices (loadChild child rolled s) = pendingDatabaseDevices s.
Proof.
  intros Hpool. apply poolValid_iff in Hpool. destruct Hpool as [Hlt Hnd].
  unfold loadChild.
  destruct (getDeviceTypeFromMeshName (name child)) as [[type template]|].
  - split; [| reflexivity]. apply poolValid_iff. simpl.
    rewrite length_app. simpl. split.
    + intros o Ho. apply in_app_iff in Ho. destruct Ho as [Ho | [<- | []]]; [| lia].
      specialize (Hlt o Ho). lia.
    + apply List.NoDup_app;
        [exact Hnd | apply List.NoDup_cons; [intros [] | constructor] |].
      intros x Hx [<- | []]. specialize (Hlt _ Hx). lia.
  - split; [| reflexivity]. apply poolValid_iff. simpl.
    rewrite length_app. simpl. split; [| exact Hnd].
    intros o Ho. specialize (Hlt o Ho). lia.
Qed.

Lemma loadModel_step (model : list (mesh * float)) (s : state) :
  poolValid s = true ->
  poolValid (loadModel model s) = true
  /\ pendingDatabaseDevices (loadModel model s) = pendingDatabaseDevices s.
Proof.
  unfold loadModel. revert s. induction model as [|[child rolled] model IH]; intros s Hpool.
  - split; [exact Hpool | reflexivity].
  - simpl. destruct (loadChild_step child rolled s Hpool) as [Hp Hq].
    destruct (IH _ Hp) as [Hp' Hq']. split; [exact Hp' | rewrite Hq'; exact Hq].
Qed.




End Spawning.

(** ** Sync Gateway: local effect and remote confirmation *)
Section SyncGateway.

(** The state a position update leaves does not depend on how the save
    ends, and for a database device the closing alert is the success
    message either way. *)
Lemma updatePosition_ignores_save (x y z : Q) (save : fetchResult) (o : nat)
    (m : mesh) (data : device) (s : state) :
  selectedMesh s = Some o ->
  heap s !! o = Some m ->
  JsObject.get (dbKeyOf m) (DEVICE_DB s) = Some data ->
  hasDbId data = true ->
  updatePositionBtn_click (Some x) (Some y) (Some z) save s
  = (updateMesh o (mesh_setPosition (Vec3 x y z)) s,
     saveDevicePosition save ++ [Alert (MsgPositionSaved (Vec3 x y z))]).
Proof.
  intros Hsel Hm Hd Hid. unfold updatePositionBtn_click.
  rewrite Hsel, Hm, Hd, Hid. reflexivity.
Qed.

(** C1, at a failing input.  Device [db_2] of the sample facility is
    selected and sits at (1, 7, 1); the user enters (9, 7, 9) and the PUT
    request is answered with an error status.  The mesh has moved all the
    same, the failure only reaches the console, and the alert says that the
    position was saved. *)
Theorem position_update_survives_failed_save :
  let s := fst (select3DByKey sampleNow "db_2" twinState) in
  let r := updatePositionBtn_click (Some 9%Q) (Some 7%Q) (Some 9%Q) (HttpResponse false) s in
  (position <$> heap s !! 4%nat) = Some (Vec3 1 7 1)
  /\ (position <$> heap (fst r) !! 4%nat) = Some (Vec3 9 7 9)
  /\ snd r = [ConsoleError "Failed to save device position:";
              Alert (MsgPositionSaved (Vec3 9 7 9))]
  /\ fst r = fst (updatePositionBtn_click (Some 9%Q) (Some 7%Q) (Some 9%Q)
                    (HttpResponse true) s).
Proof. vm_compute. repeat split. Qed.

(** The delete handler, next to it, waits for the confirmation: with the
    same device selected and the DELETE request failing, the state is
    untouched and the user is told. *)
Lemma delete_waits_for_confirmation :
  let s := fst (select3DByKey sampleNow "db_2" twinState) in
  deleteDeviceBtn_click true (HttpResponse false) s
  = (s, [ConsoleError "Failed to delete device:"; Alert MsgDeleteFailed])
  /\ deleteDeviceBtn_click true NetworkFailure s
     = (s, [ConsoleError "Failed to delete device:"; Alert MsgDeleteFailed]).
Proof. vm_compute. repeat split. Qed.

(** [updateDeviceHealth] does not notice an error status at all. *)
Lemma updateDeviceHealth_ignores_status :
  updateDeviceHealth (HttpResponse false) = updateDeviceHealth (HttpResponse true).
Proof. reflexivity. Qed.

End SyncGateway.

(** ** Invariants of the event machine *)
Section Invariants.

Lemma playingBlinks_eq (s s' : state) :
  tweens s' = tweens s -> playingBlinks s' = playingBlinks s.
Proof. unfold playingBlinks. intros ->. reflexivity. Qed.

Lemma blinkOwned_eq (s s' : state) :
  playingBlinks s' = playingBlinks s -> blinkTween s' = blinkTween s ->
  blinkOwned s' = blinkOwned s.
Proof. unfold blinkOwned. intros -> ->. reflexivity. Qed.

(** A tween that is not a highlight does not count. *)
Lemma playingBlinks_start_other (k : tweenKind) (s : state) :
  isBlink k = false ->
  playingBlinks (snd (tweenStart k s)) = playingBlinks s.
Proof.
  intros Hk. unfold playingBlinks, tweenStart. simpl.
  rewrite playingFrom_app, List.filter_app. simpl. rewrite Hk. apply app_nil_r.
Qed.

Lemma blinkOwned_stop (t : nat) (s : state) :
  blinkOwned s = true -> blinkOwned (tweenStop t s) = true.
Proof.
  unfold blinkOwned, playingBlinks, tweenStop. simpl.
  rewrite playingFrom_stop, !forallb_forall.
  intros H x Hx. apply H.
  apply filter_In in Hx. destruct Hx as [Hx Hb].
  apply filter_In in Hx. destruct Hx as [Hx _].
  apply filter_In. auto.
Qed.

Lemma blinkOwned_addWarrantyIndicator (now : Z) (o : nat) (e : dateField) (s : state) :
  blinkOwned (addWarrantyIndicator now o e s) = blinkOwned s.
Proof.
  unfold addWarrantyIndicator.
  destruct (negb (dateTruthy e)); [reflexivity |].
  destruct (ringColorFor _); [| reflexivity].
  destruct (heap s !! o); [| reflexivity].
  destruct (daysLt _ 30); [| reflexivity].
  apply blinkOwned_eq; [| reflexivity].
  rewrite playingBlinks_start_other by reflexivity. reflexivity.
Qed.

Lemma blinkOwned_spawn (now : Z) (d : deviceData) (s : state) :
  blinkOwned (fst (spawnDeviceFromDatabase now d s)) = blinkOwned s.
Proof.
  unfold spawnDeviceFromDatabase.
  destruct (findMesh _ s) as [[t tm]|]; [| reflexivity].
  cbv zeta. unfold allocMesh. cbv beta iota. cbn [fst].
  rewrite blinkOwned_addWarrantyIndicator. reflexivity.
Qed.

Lemma blinkOwned_spawn_list (now : Z) (q : list deviceData) (s : state) :
  blinkOwned (fold_left (fun st d => fst (spawnDeviceFromDatabase now d st)) q s)
  = blinkOwned s.
Proof.
  revert s. induction q as [|d q IH]; intros s; [reflexivity |].
  simpl. rewrite IH. apply blinkOwned_spawn.
Qed.

Lemma blinkOwned_loadModel (model : list (mesh * float)) (s : state) :
  blinkOwned (loadModel model s) = blinkOwned s.
Proof.
  unfold loadModel. revert s. induction model as [|[c r] model IH]; intros s; [reflexivity |].
  simpl. rewrite IH. unfold loadChild.
  destruct (getDeviceTypeFromMeshName (name c)) as [[ty tpl]|]; reflexivity.
Qed.

Lemma blinkOwned_deselectAll3D (r : bool) (s : state) :
  blinkOwned s = true -> blinkOwned (deselectAll3D r s) = true.
Proof.
  intros H. unfold blinkOwned. rewrite (deselectAll3D_stops_blinks r s H). reflexivity.
Qed.

Lemma blinkOwned_select3DMesh (now : Z) (o : nat) (s : state) :
  blinkOwned s = true -> blinkOwned (fst (select3DMesh now o s)) = true.
Proof.
  intros H.
  destruct (heap (deselectAll3D false s) !! o) as [m0|] eqn:Hm0.
  - assert (exists m, heap s !! o = Some m /\ dbKeyOf m = dbKeyOf m0) as (m & Hm & Hk).
    { rewrite heap_deselectAll3D in Hm0. destruct (selectedMesh s) as [sel|]; [| eauto].
      rewrite list_lookup_alter in Hm0. destruct (decide (sel = o)) as [-> | _]; [| eauto].
      destruct (heap s !! o) as [m|]; [| discriminate]. simpl in Hm0.
      exists m. split; [reflexivity |]. injection Hm0 as <-.
      destruct (userData_originalMat m); reflexivity. }
    destruct (JsObject.get (dbKeyOf m) (DEVICE_DB s)) as [data|] eqn:Hd.
    + apply (playingBlinks_select3DMesh now o m data s H Hm Hd).
    + rewrite (select3DMesh_unregistered_throws now o m0 s Hm0) by (rewrite <- Hk; exact Hd).
      apply (blinkOwned_deselectAll3D false s H).
  - unfold select3DMesh.
    change (heap (set_selectedMesh (Some o) (deselectAll3D false s)))
      with (heap (deselectAll3D false s)).
    rewrite Hm0. apply (blinkOwned_deselectAll3D false s H).
Qed.

Lemma blinkOwned_delete (c : bool) (r : fetchResult) (s : state) :
  blinkOwned (fst (deleteDeviceBtn_click c r s)) = blinkOwned s.
Proof.
  assert (forall o data, blinkOwned (fst (deleteDeviceBtn_finish o data s)) = blinkOwned s)
    as Hfin.
  { intros o data. unfold deleteDeviceBtn_finish. cbv zeta. unfold tweenStart. cbn [fst].
    apply blinkOwned_eq; [| reflexivity].
    unfold playingBlinks. simpl. rewrite playingFrom_app, List.filter_app. simpl.
    apply app_nil_r. }
  unfold deleteDeviceBtn_click.
  destruct (selectedMesh s) as [o|]; [| reflexivity].
  destruct (heap s !! o) as [m|]; [| reflexivity].
  destruct (JsObject.get _ _) as [data|]; [| reflexivity].
  destruct (negb c); [reflexivity |].
  destruct (hasDbId data); [| apply Hfin].
  destruct (deleteDevice r) as [[] log]; [| reflexivity].
  specialize (Hfin o data). destruct (deleteDeviceBtn_finish o data s). exact Hfin.
Qed.

Lemma blinkOwned_tweenComplete (t : nat) (s : state) :
  blinkOwned s = true -> blinkOwned (tweenComplete t s) = true.
Proof.
  intros H. unfold tweenComplete.
  destruct (tweens s !! t) as [tw|]; [| exact H].
  destruct (kind tw) as [o|o|o i|o k]; try exact H.
  - destruct (playing tw); [| exact H].
    unfold completeMeshDeletion.
    match goal with
    | |- context [tweenStop t ?s0] =>
        assert (blinkOwned (tweenStop t s0) = true) as H1 by (apply blinkOwned_stop; exact H);
        destruct (heap (tweenStop t s0) !! o); exact H1
    end.
  - destruct (playing tw); [| exact H].
    apply blinkOwned_stop. exact H.
Qed.

Lemma blinkOwned_spawnDeviceAndSave (now : Z) (typeKey : string) (productId : option N)
    (created : option deviceData) (s : state) :
  blinkOwned (fst (spawnDeviceAndSave now typeKey productId created s)) = blinkOwned s.
Proof.
  unfold spawnDeviceAndSave.
  destruct (findMesh _ s); [| reflexivity].
  destruct productId; [| reflexivity]. destruct created as [d|]; [| reflexivity].
  pose proof (blinkOwned_spawn now d s) as Hs.
  destruct (spawnDeviceFromDatabase now d s) as [s1 [o|]]; [| exact Hs].
  simpl in Hs. destruct (heap s1 !! o) as [m|]; [| exact Hs].
  cbn [fst]. rewrite <- Hs. apply blinkOwned_eq; [| reflexivity].
  rewrite playingBlinks_start_other by reflexivity. reflexivity.
Qed.

(** In every state the program reaches, the only highlight animation that
    may be running is the one held in [state3D.blinkTween]. *)
Lemma blinkOwned_handle (e : event) (s : state) :
  blinkOwned s = true -> blinkOwned (handle e s) = true.
Proof.
  intros H. destruct e; cbn [handle].
  - unfold loader_onLoad, drainPending.
    destruct (pendingDatabaseDevices (loadModel model s)); [| rewrite blinkOwned_loadModel; exact H].
    change (blinkOwned (set_pendingDatabaseDevices (Some []) ?x)) with (blinkOwned x).
    rewrite blinkOwned_spawn_list, blinkOwned_loadModel. exact H.
  - unfold loadWarehouse_resume. rewrite blinkOwned_spawn_list. exact H.
  - unfold reloadFromDatabase. rewrite blinkOwned_spawn_list. exact H.
  - rewrite blinkOwned_spawnDeviceAndSave. exact H.
  - unfold select3DByKey. destruct (findMesh _ s) as [[o m]|]; [| exact H].
    apply blinkOwned_select3DMesh, H.
  - destruct (existsb _ _); [apply blinkOwned_select3DMesh, H | exact H].
  - apply blinkOwned_deselectAll3D. exact H.
  - rewrite blinkOwned_delete. exact H.
  - unfold updatePositionBtn_click.
    destruct (selectedMesh s) as [o|]; [| exact H].
    destruct posX, posY, posZ; try exact H.
    destruct (match heap s !! o with Some _ => _ | None => _ end) as [d|];
      [destruct (hasDbId d) |]; exact H.
  - destruct choice; exact H.
  - unfold nodeCanvas_wheel. destruct (_ && _); exact H.
  - exact H.
  - unfold nodeCanvas_mousemove. destruct (isDragging _); exact H.
  - exact H.
  - unfold nodeCanvas_click, showInfoPanel.
    destruct (getNodeAtPosition mouse s) as [k|]; [| exact H].
    destruct (JsObject.get k (DEVICE_DB s)); exact H.
  - apply blinkOwned_tweenComplete, H.
Qed.

Lemma poolValid_same (s s' : state) :
  length (heap s') = length (heap s) ->
  interactableMeshes s' = interactableMeshes s ->
  poolValid s' = poolValid s.
Proof. unfold poolValid. intros -> ->. reflexivity. Qed.

Lemma poolValid_sub (s s' : state) :
  length (heap s') = length (heap s) ->
  (forall o, In o (interactableMeshes s') -> In o (interactableMeshes s)) ->
  (List.NoDup (interactableMeshes s) -> List.NoDup (interactableMeshes s')) ->
  poolValid s = true -> poolValid s' = true.
Proof.
  intros Hlen Hsub Hnd H. apply poolValid_iff in H. destruct H as [Hlt Hn].
  apply poolValid_iff. rewrite Hlen. split; [| apply Hnd, Hn].
  intros o Ho. apply Hlt, Hsub, Ho.
Qed.

Lemma NoDup_removeFirst (x : nat) (l : list nat) :
  List.NoDup l -> List.NoDup (removeFirst x l).
Proof.
  induction 1 as [|z l Hz Hnd IH]; simpl; [constructor |].
  destruct (Nat.eqb x z); [exact Hnd |].
  constructor; [| exact IH]. intros H. apply Hz, (In_removeFirst x), H.
Qed.

Lemma length_heap_deselectAll3D (r : bool) (s : state) :
  length (heap (deselectAll3D r s)) = length (heap s).
Proof.
  rewrite heap_deselectAll3D. destruct (selectedMesh s); [apply length_alter | reflexivity].
Qed.

Lemma poolValid_deselectAll3D (r : bool) (s : state) :
  poolValid (deselectAll3D r s) = poolValid s.
Proof.
  apply poolValid_same; [apply length_heap_deselectAll3D |].
  apply (fields_deselectAll3D r s).
Qed.

Lemma poolValid_select3DMesh (now : Z) (o : nat) (s : state) :
  poolValid (fst (select3DMesh now o s)) = poolValid s.
Proof.
  rewrite <- (poolValid_deselectAll3D false s).
  unfold select3DMesh.
  change (heap (set_selectedMesh (Some o) (deselectAll3D false s)))
    with (heap (deselectAll3D false s)).
  destruct (heap (deselectAll3D false s) !! o) as [m|]; [| reflexivity].
  destruct (JsObject.get _ _) as [data|]; [| reflexivity].
  cbv zeta. unfold tweenStart. cbv beta iota. cbn [fst].
  unfold showInfoPanel.
  destruct (JsObject.get _ _); apply poolValid_same; simpl; rewrite ?length_alter; reflexivity.
Qed.

Lemma poolValid_spawn_list (now : Z) (q : list deviceData) (s : state) :
  poolValid s = true ->
  poolValid (fold_left (fun st d => fst (spawnDeviceFromDatabase now d st)) q s) = true.
Proof.
  revert s. induction q as [|d q IH]; intros s H; [exact H |].
  simpl. apply IH. apply (spawn_step now d s H).
Qed.

Lemma poolValid_delete (c : bool) (r : fetchResult) (s : state) :
  poolValid s = true -> poolValid (fst (deleteDeviceBtn_click c r s)) = true.
Proof.
  intros H.
  assert (forall o data, poolValid (fst (deleteDeviceBtn_finish o data s)) = true) as Hfin.
  { intros o data. revert H. apply poolValid_sub.
    - unfold deleteDeviceBtn_finish. simpl. apply length_alter.
    - unfold deleteDeviceBtn_finish. simpl. intros y. apply In_removeFirst.
    - unfold deleteDeviceBtn_finish. simpl. apply NoDup_removeFirst. }
  unfold deleteDeviceBtn_click.
  destruct (selectedMesh s) as [o|]; [| exact H].
  destruct (heap s !! o) as [m|]; [| exact H].
  destruct (JsObject.get _ _) as [data|]; [| exact H].
  destruct (negb c); [exact H |].
  destruct (hasDbId data); [| apply Hfin].
  destruct (deleteDevice r) as [[] log]; [| exact H].
  specialize (Hfin o data). destruct (deleteDeviceBtn_finish o data s). exact Hfin.
Qed.

Lemma poolValid_tweenComplete (t : nat) (s : state) :
  poolValid (tweenComplete t s) = poolValid s.
Proof.
  unfold tweenComplete.
  destruct (tweens s !! t) as [tw|]; [| reflexivity].
  destruct (kind tw) as [o|o|o i|o k]; try reflexivity.
  - destruct (playing tw); [| reflexivity].
    unfold completeMeshDeletion.
    match goal with
    | |- context [heap ?s0 !! o] => destruct (heap s0 !! o)
    end; apply poolValid_same; simpl; rewrite ?length_alter; reflexivity.
  - destruct (playing tw); [| reflexivity].
    apply poolValid_same; simpl; rewrite ?length_alter; reflexivity.
Qed.

Lemma poolValid_spawnDeviceAndSave (now : Z) (typeKey : string) (productId : option N)
    (created : option deviceData) (s : state) :
  poolValid s = true ->
  poolValid (fst (spawnDeviceAndSave now typeKey productId created s)) = true.
Proof.
  intros H. unfold spawnDeviceAndSave.
  destruct (findMesh _ s); [| exact H].
  destruct productId; [| exact H]. destruct created as [d|]; [| exact H].
  pose proof (proj1 (spawn_step now d s H)) as Hs.
  destruct (spawnDeviceFromDatabase now d s) as [s1 [o|]]; [| exact Hs].
  simpl in Hs. destruct (heap s1 !! o) as [m|]; [| exact Hs].
  cbn [fst]. rewrite <- Hs. apply poolValid_same; simpl; rewrite ?length_alter; reflexivity.
Qed.

(** In every state the program reaches, the interactable list refers to
    objects of the store and lists none of them twice. *)
Lemma poolValid_handle (e : event) (s : state) :
  poolValid s = true -> poolValid (handle e s) = true.
Proof.
  intros H. destruct e; cbn [handle].
  - unfold loader_onLoad, drainPending.
    pose proof (proj1 (loadModel_step model s H)) as H1.
    destruct (pendingDatabaseDevices (loadModel model s)); [| exact H1].
    change (poolValid (set_pendingDatabaseDevices (Some []) ?x)) with (poolValid x).
    apply poolValid_spawn_list, H1.
  - unfold loadWarehouse_resume. apply poolValid_spawn_list. exact H.
  - unfold reloadFromDatabase. apply poolValid_spawn_list.
    revert H. apply poolValid_sub; simpl.
    + reflexivity.
    + intros o Ho. apply filter_In in Ho. tauto.
    + intros Hn. apply List.NoDup_filter, Hn.
  - apply poolValid_spawnDeviceAndSave, H.
  - unfold select3DByKey. destruct (findMesh _ s) as [[o m]|]; [| exact H].
    rewrite poolValid_select3DMesh. exact H.
  - destruct (existsb _ _); [rewrite poolValid_select3DMesh |]; exact H.
  - rewrite poolValid_deselectAll3D. exact H.
  - apply poolValid_delete, H.
  - unfold updatePositionBtn_click.
    destruct (selectedMesh s) as [o|]; [| exact H].
    assert (poolValid (updateMesh o (mesh_setPosition
              (Vec3 (default 0%Q posX) (default 0%Q posY) (default 0%Q posZ))) s) = true)
      as Hup by (rewrite <- H; apply poolValid_same; simpl; rewrite ?length_alter; reflexivity).
    destruct posX, posY, posZ; try exact H.
    destruct (match heap s !! o with Some _ => _ | None => _ end) as [d|];
      [destruct (hasDbId d) |]; exact Hup.
  - destruct choice; exact H.
  - unfold nodeCanvas_wheel. destruct (_ && _); exact H.
  - exact H.
  - unfold nodeCanvas_mousemove. destruct (isDragging _); exact H.
  - exact H.
  - unfold nodeCanvas_click, showInfoPanel.
    destruct (getNodeAtPosition mouse s) as [k|]; [| exact H].
    destruct (JsObject.get k (DEVICE_DB s)); exact H.
  - rewrite poolValid_tweenComplete. exact H.
Qed.

Lemma invariants_run (es : list event) (n : Z) :
  blinkOwned (run es (initialState n)) = true
  /\ poolValid (run es (initialState n)) = true.
Proof.
  unfold run.
  assert (blinkOwned (initialState n) = true /\ poolValid (initialState n) = true) as H0
    by (split; reflexivity).
  revert H0. generalize (initialState n).
  induction es as [|e es IH]; intros s [H1 H2]; [auto |].
  simpl. apply IH. split; [apply blinkOwned_handle, H1 | apply poolValid_handle, H2].
Qed.

(** The identities of the running tweens are pairwise different, so an
    owned highlight is the only one. *)
Lemma playingFrom_NoDup (i : nat) (l : list tween) :
  List.NoDup (map fst (playingFrom i l)).
Proof.
  revert i. induction l as [|tw l IH]; intros i; simpl; [constructor |].
  destruct (playing tw); simpl; [| apply IH].
  constructor; [| apply IH].
  intros H. apply in_map_iff in H. destruct H as (x & Hx & Hin).
  apply playingFrom_ge in Hin. lia.
Qed.

Lemma blinkOwned_at_most_one (s : state) :
  blinkOwned s = true -> length (playingBlinks s) <= 1.
Proof.
  unfold blinkOwned, playingBlinks. intros H. rewrite forallb_forall in H.
  pose proof (playingFrom_NoDup 0 (tweens s)) as Hnd.
  induction (playingFrom 0 (tweens s)) as [|x l IH]; simpl; [lia |].
  simpl in Hnd. apply List.NoDup_cons_iff in Hnd. destruct Hnd as [Hx Hnd].
  simpl in H. destruct (isBlink (snd x)) eqn:Hb.
  - assert (List.filter (fun it => isBlink (snd it)) l = []) as ->; [| simpl; lia].
    apply filter_nil. intros y Hy.
    destruct (isBlink (snd y)) eqn:Hby; [exfalso | reflexivity].
    apply Hx. apply in_map_iff. exists y. split; [| exact Hy].
    assert (In y (x :: List.filter (fun it => isBlink (snd it)) l)) as Hy'
      by (right; apply filter_In; auto).
    pose proof (H x (or_introl eq_refl)) as Ex. pose proof (H y Hy') as Ey.
    destruct (blinkTween s) as [t|]; [| discriminate].
    apply Nat.eqb_eq in Ex, Ey. congruence.
  - apply IH; [exact H | exact Hnd].
Qed.

(** Whatever the events, at most one highlight animation is running. *)
Lemma at_most_one_highlight (es : list event) (n : Z) :
  length (playingBlinks (run es (initialState n))) <= 1.
Proof. apply blinkOwned_at_most_one, invariants_run. Qed.

(** *** The zoom factor *)

Lemma nodeView_addWarrantyIndicator (now : Z) (o : nat) (e : dateField) (s : state) :
  nodeView (addWarrantyIndicator now o e s) = nodeView s.
Proof.
  unfold addWarrantyIndicator.
  destruct (negb (dateTruthy e)); [reflexivity |].
  destruct (ringColorFor _); [| reflexivity].
  destruct (heap s !! o); [| reflexivity].
  destruct (daysLt _ 30); reflexivity.
Qed.

Lemma nodeView_spawn (now : Z) (d : deviceData) (s : state) :
  nodeView (fst (spawnDeviceFromDatabase now d s)) = nodeView s.
Proof.
  unfold spawnDeviceFromDatabase.
  destruct (findMesh _ s) as [[t tm]|]; [| reflexivity].
  cbv zeta. unfold allocMesh. cbv beta iota. cbn [fst].
  rewrite nodeView_addWarrantyIndicator. reflexivity.
Qed.

Lemma nodeView_spawn_list (now : Z) (q : list deviceData) (s : state) :
  nodeView (fold_left (fun st d => fst (spawnDeviceFromDatabase now d st)) q s)
  = nodeView s.
Proof.
  revert s. induction q as [|d q IH]; intros s; [reflexivity |].
  simpl. rewrite IH. apply nodeView_spawn.
Qed.

Lemma nodeView_loadModel (model : list (mesh * float)) (s : state) :
  nodeView (loadModel model s) = nodeView s.
Proof.
  unfold loadModel. revert s. induction model as [|[c r] model IH]; intros s; [reflexivity |].
  simpl. rewrite IH. unfold loadChild.
  destruct (getDeviceTypeFromMeshName (name c)) as [[ty tpl]|]; reflexivity.
Qed.

Lemma nodeView_deselectAll3D (r : bool) (s : state) :
  nodeView (deselectAll3D r s) = nodeView s.
Proof.
  unfold deselectAll3D.
  destruct (blinkTween s); simpl; destruct (selectedMesh s); destruct r; reflexivity.
Qed.

Lemma nodeView_select3DMesh (now : Z) (o : nat) (s : state) :
  nodeView (fst (select3DMesh now o s)) = nodeView s.
Proof.
  rewrite <- (nodeView_deselectAll3D false s).
  unfold select3DMesh.
  change (heap (set_selectedMesh (Some o) (deselectAll3D false s)))
    with (heap (deselectAll3D false s)).
  destruct (heap (deselectAll3D false s) !! o) as [m|]; [| reflexivity].
  destruct (JsObject.get _ _) as [data|]; [| reflexivity].
  cbv zeta. unfold tweenStart. cbv beta iota. cbn [fst].
  unfold showInfoPanel. destruct (JsObject.get _ _); reflexivity.
Qed.

Lemma nodeView_delete (c : bool) (r : fetchResult) (s : state) :
  nodeView (fst (deleteDeviceBtn_click c r s)) = nodeView s.
Proof.
  unfold deleteDeviceBtn_click.
  destruct (selectedMesh s) as [o|]; [| reflexivity].
  destruct (heap s !! o) as [m|]; [| reflexivity].
  destruct (JsObject.get _ _) as [data|]; [| reflexivity].
  destruct (negb c); [reflexivity |].
  destruct (hasDbId data); [| reflexivity].
  destruct (deleteDevice r) as [[] log]; reflexivity.
Qed.

Lemma nodeView_tweenComplete (t : nat) (s : state) :
  nodeView (tweenComplete t s) = nodeView s.
Proof.
  unfold tweenComplete.
  destruct (tweens s !! t) as [tw|]; [| reflexivity].
  destruct (kind tw) as [o|o|o i|o k]; try reflexivity.
  - destruct (playing tw); [| reflexivity].
    unfold completeMeshDeletion.
    match goal with
    | |- context [heap ?s0 !! o] => destruct (heap s0 !! o)
    end; reflexivity.
  - destruct (playing tw); reflexivity.
Qed.

Lemma nodeView_spawnDeviceAndSave (now : Z) (typeKey : string) (productId : option N)
    (created : option deviceData) (s : state) :
  nodeView (fst (spawnDeviceAndSave now typeKey productId created s)) = nodeView s.
Proof.
  unfold spawnDeviceAndSave.
  destruct (findMesh _ s); [| reflexivity].
  destruct productId; [| reflexivity]. destruct created as [d|]; [| reflexivity].
  pose proof (nodeView_spawn now d s) as Hs.
  destruct (spawnDeviceFromDatabase now d s) as [s1 [o|]]; [| exact Hs].
  simpl in Hs. destruct (heap s1 !! o) as [m|]; exact Hs.
Qed.

Lemma zoomBounded_handle (e : event) (s : state) :
  zoomBounded (nodeView s) -> zoomBounded (nodeView (handle e s)).
Proof.
  intros H. destruct e; cbn [handle].
  - unfold loader_onLoad, drainPending.
    destruct (pendingDatabaseDevices (loadModel model s));
      [| rewrite nodeView_loadModel; exact H].
    change (nodeView (set_pendingDatabaseDevices (Some []) ?x)) with (nodeView x).
    rewrite nodeView_spawn_list, nodeView_loadModel. exact H.
  - unfold loadWarehouse_resume. rewrite nodeView_spawn_list. exact H.
  - unfold reloadFromDatabase. rewrite nodeView_spawn_list. exact H.
  - rewrite nodeView_spawnDeviceAndSave. exact H.
  - unfold select3DByKey. destruct (findMesh _ s) as [[o m]|]; [| exact H].
    rewrite nodeView_select3DMesh. exact H.
  - destruct (existsb _ _); [rewrite nodeView_select3DMesh |]; exact H.
  - rewrite nodeView_deselectAll3D. exact H.
  - rewrite nodeView_delete. exact H.
  - unfold updatePositionBtn_click.
    destruct (selectedMesh s) as [o|]; [| exact H].
    destruct posX, posY, posZ; try exact H.
    destruct (match heap s !! o with Some _ => _ | None => _ end) as [d|];
      [destruct (hasDbId d) |]; exact H.
  - destruct choice; exact H.
  - unfold nodeCanvas_wheel.
    destruct (Qle_bool (minScale (nodeView s)) _) eqn:E1; simpl; [| exact H].
    destruct (Qle_bool _ (maxScale (nodeView s))); simpl; [| exact H].
    apply Qle_bool_iff in E1. destruct H as [H0 _]. split; assumption.
  - exact H.
  - unfold nodeCanvas_mousemove. destruct (isDragging _); exact H.
  - exact H.
  - unfold nodeCanvas_click, showInfoPanel.
    destruct (getNodeAtPosition mouse s) as [k|]; [| exact H].
    destruct (JsObject.get k (DEVICE_DB s)); exact H.
  - rewrite nodeView_tweenComplete. exact H.
Qed.

(** Whatever the events, the zoom factor of the node view is not zero. *)
Lemma zoom_never_zero (es : list event) (n : Z) :
  ~ (nv_scale (nodeView (run es (initialState n))) == 0)%Q.
Proof.
  assert (zoomBounded (nodeView (run es (initialState n)))) as [H0 H1].
  { unfold run.
    assert (zoomBounded (nodeView (initialState n))) as Hi
      by (split; [reflexivity | unfold Qle; simpl; lia]).
    revert Hi. generalize (initialState n).
    induction es as [|e es IH]; intros s H; [exact H |].
    simpl. apply IH, zoomBounded_handle, H. }
  intros E. rewrite E in H1.
  apply (Qlt_irrefl 0). eapply Qlt_le_trans; [exact H0 | exact H1].
Qed.

End Invariants.
